(** * Drain Guard AI: the dashboard script [frontend.py]

    A shallow embedding of the Streamlit script: the artifact loader
    ([load_artifacts], section 3 of the script), the widgets of the sidebar
    (section 4) as the input of one run, and the main dashboard (section 5)
    with its prediction block.

    The script has no pure core: every line either calls Streamlit, the
    operating system, joblib or one of the two loaded artifacts.  The
    embedding therefore runs in a small monad of its own, which threads the
    cache of the artifacts, logs the calls made and propagates Python
    exceptions. *)

From Stdlib Require Import ZArith List String Ascii Bool Lia.
From Stdlib Require Import PrimFloat FloatOps FloatAxioms SpecFloat.
Import ListNotations.

Set Warnings "-inexact-float".

Local Open Scope string_scope.
Local Open Scope Z_scope.

(** ** Python values of the script *)

(** A Python [float] is an IEEE 754 binary64 number, which is what the
    kernel's primitive floats are. *)
Definition pyfloat : Set := PrimFloat.float.

(** An instance of Python's [Exception] class: its class name and the text
    [str(e)] that the handlers of the script interpolate in their messages.
    The system-exiting exceptions ([KeyboardInterrupt], [SystemExit]), which
    derive from [BaseException] only, are not part of the model. *)
Record exn : Type := Exception { exn_class : string; exn_str : string }.

(** The result of evaluating a Python expression. *)
Inductive outcome (A : Type) : Type :=
| Return (a : A)
| Raise (e : exn).
Arguments Return {A} a.
Arguments Raise {A} e.

(** One cell of a pandas DataFrame, with its dtype: [int64] or [float64]. *)
Inductive cell : Type :=
| CInt (z : Z)
| CFloat (f : pyfloat).

(** [pd.DataFrame([{...}])]: a list of rows, each row the list of its
    (column name, value) pairs in the insertion order of the dict. *)
Definition row : Type := list (string * cell).
Definition dataframe : Type := list row.

(** A two-dimensional numpy array of float64, as a list of rows. *)
Definition ndarray2 : Type := list (list pyfloat).

(** The class labels a classifier predicts are integers. *)
Definition label : Type := Z.

(** An object that [joblib.load] returned.  The script tests its truth value
    ([if model and scaler]) and calls three methods on it; a method that the
    object does not have raises [AttributeError], so it is an outcome as
    well.  Methods are functions of their argument: the artifacts are
    deterministic and are not changed by a call. *)
Record pyobject : Type := {
  truth : bool;
  transform : dataframe -> outcome ndarray2;
  predict : ndarray2 -> outcome (list label);
  predict_proba : ndarray2 -> outcome ndarray2
}.

(** A Python value that is [None] or an object. *)
Definition pyval : Type := option pyobject.

(** [bool(v)]: [None] is false. *)
Definition truthy (v : pyval) : bool :=
  match v with
  | None => false
  | Some o => truth o
  end.

(** [int(b)] for a [bool]. *)
Definition int_of_bool (b : bool) : Z := if b then 1 else 0.

(** [float(n)] for an [int]: the nearest binary64 number.  (Python raises
    [OverflowError] beyond the range of binary64; the slider of the script
    gives integers from 0 to 1000.) *)
Definition float_of_int (n : Z) : pyfloat :=
  SF2Prim (binary_normalize prec emax n 0 false).

(** [a[0]] on a numpy array: the first item, [IndexError] when there is
    none. *)
Definition item0 {A : Type} (a : list A) : outcome A :=
  match a with
  | x :: _ => Return x
  | [] => Raise (Exception "IndexError"
                   "index 0 is out of bounds for axis 0 with size 0")
  end.

(** The builtin [max(iterable)]: it keeps the first item and replaces it
    by every later item that compares greater ([item > maxitem]);
    [ValueError] on an empty iterable. *)
Fixpoint max_from (maxitem : pyfloat) (items : list pyfloat) : pyfloat :=
  match items with
  | [] => maxitem
  | item :: rest =>
      max_from (if PrimFloat.ltb maxitem item then item else maxitem) rest
  end.

Definition py_max (items : list pyfloat) : outcome pyfloat :=
  match items with
  | [] => Raise (Exception "ValueError" "max() arg is an empty sequence")
  | item :: rest => Return (max_from item rest)
  end.

(** [s.endswith("/")] and [s.startswith("/")]. *)
Fixpoint endswith_sep (s : string) : bool :=
  match s with
  | EmptyString => false
  | String c EmptyString => Ascii.eqb c "/"
  | String _ rest => endswith_sep rest
  end.

Definition startswith_sep (s : string) : bool :=
  match s with
  | String c _ => Ascii.eqb c "/"
  | EmptyString => false
  end.

(** [os.path.join(a, b)] of [posixpath]. *)
Definition os_path_join (a b : string) : string :=
  if startswith_sep b then b
  else if (String.length a =? 0)%nat || endswith_sep a then a ++ b
  else a ++ "/" ++ b.

(** ** The calls of the script and their log *)

(** What a Streamlit call displays.  An f-string is kept as the values it
    interpolates; the fixed HTML around them is not part of the model. *)
Inductive element : Type :=
| title (body : string)
| markdown (body : string)
| caption (body : string)
| subheader (body : string)
| error (body : string)
| warning (body : string)
| hero_panel (bg_color status_color result_icon status_label
              message sub_message : string)
| columns (spec : list Z)
| columns_count (n : Z)
| metric_temp (temp_val delta : pyfloat)
| metric_level (water_dist : Z) (delta : string)
| badges (rain_val gas_val wf_val : bool)
| progress (value percent : pyfloat)
| expander (label : string)
| dataframe_view (data : dataframe).

(** A call outside Streamlit. *)
Inductive call : Type :=
| joblib_load_call (path : string)
| scaler_transform (X : dataframe)
| model_predict (X : ndarray2)
| model_predict_proba (X : ndarray2).

Inductive event : Type :=
| Show (e : element)
| Call (c : call).

(** The three calls of the classification pipeline. *)
Definition is_pipeline_call (ev : event) : bool :=
  match ev with
  | Call (scaler_transform _) | Call (model_predict _)
  | Call (model_predict_proba _) => true
  | _ => false
  end.

(** Everything outside the script: the directory of the script, the file
    system, joblib, and whether a Streamlit call of the prediction block
    raises instead of displaying its element. *)
Record world : Type := {
  script_dir : string;
  os_path_exists : string -> bool;
  joblib_load : string -> outcome pyval;
  st_raises : element -> option exn
}.

(** The cache of [st.cache_resource] for [load_artifacts]: empty, or the
    pair the function returned.  It outlives a run of the script. *)
Definition cache_t : Type := option (pyval * pyval).

(** ** The monad of the script: cache, log and exceptions *)

(** What a piece of the script leaves: its outcome, the cache, and the
    calls it made, in order.  The script never reads the log, so the log is
    an output only. *)
Record reply (A : Type) : Type := Reply {
  outcome_of : outcome A;
  cache_of : cache_t;
  log_of : list event
}.
Arguments Reply {A} _ _ _.
Arguments outcome_of {A} _.
Arguments cache_of {A} _.
Arguments log_of {A} _.

Definition M (A : Type) : Type := cache_t -> reply A.

Definition ret {A : Type} (a : A) : M A := fun c => Reply (Return a) c [].

Definition lift {A : Type} (o : outcome A) : M A := fun c => Reply o c [].

Definition emit (ev : event) : M unit := fun c => Reply (Return tt) c [ev].

Definition bind {A B : Type} (m : M A) (k : A -> M B) : M B :=
  fun c =>
    let r := m c in
    match outcome_of r with
    | Return a =>
        let r' := k a (cache_of r) in
        Reply (outcome_of r') (cache_of r') (log_of r ++ log_of r')
    | Raise e => Reply (Raise e) (cache_of r) (log_of r)
    end.

(** [try: body except Exception as e: handler]. *)
Definition try_except {A : Type} (body : M A) (handler : exn -> M A) : M A :=
  fun c =>
    let r := body c in
    match outcome_of r with
    | Return a => r
    | Raise e =>
        let r' := handler e (cache_of r) in
        Reply (outcome_of r') (cache_of r') (log_of r ++ log_of r')
    end.

Declare Scope py_scope.
Delimit Scope py_scope with py.
Notation "x <- m ;; k" := (bind m (fun x => k))
  (at level 61, m at next level, right associativity) : py_scope.
Notation "m ;; k" := (bind m (fun _ => k))
  (at level 61, right associativity) : py_scope.
Local Open Scope py_scope.

(** A Streamlit call outside the prediction block: it displays [e].  These
    calls display a constant text or a message, and the model takes them to
    succeed. *)
Definition show (e : element) : M unit := emit (Show e).

(** A Streamlit call of the prediction block, whose arguments depend on the
    widgets and on the artifacts: it displays [e] unless the world has it
    raise. *)
Definition render (w : world) (e : element) : M unit :=
  match st_raises w e with
  | Some x => lift (Raise x)
  | None => emit (Show e)
  end.

(** A call outside Streamlit, logged before its outcome is known. *)
Definition invoke {A : Type} (c : call) (o : outcome A) : M A :=
  emit (Call c) ;; lift o.

(** A method call [v.name(X)]: [None] has no methods, and the lookup of
    the attribute fails before anything is called. *)
Definition call_method {A : Type} (v : pyval) (name : string) (c : call)
    (method : pyobject -> outcome A) : M A :=
  match v with
  | Some o => invoke c (method o)
  | None => lift (Raise (Exception "AttributeError"
                   ("'NoneType' object has no attribute '" ++ name ++ "'")))
  end.

(** ** Section 3 of the script: the artifacts *)

(** The two paths that [load_artifacts] builds. *)
Definition model_path (w : world) : string :=
  os_path_join (script_dir w) "drain_status_model.pkl".

Definition scaler_path (w : world) : string :=
  os_path_join (script_dir w) "scaler.pkl".

(** The body of [load_artifacts]. *)
Definition load_artifacts (w : world) : M (pyval * pyval) :=
  try_except
    (let current_dir := script_dir w in
     if negb (os_path_exists w (model_path w))
        || negb (os_path_exists w (scaler_path w))
     then
       show (error ("⚠️ Artifacts missing! Expected in: " ++ current_dir)) ;;
       ret (None, None)
     else
       model <- invoke (joblib_load_call (model_path w))
                       (joblib_load w (model_path w)) ;;
       scaler <- invoke (joblib_load_call (scaler_path w))
                        (joblib_load w (scaler_path w)) ;;
       ret (model, scaler))
    (fun e =>
       show (error ("❌ Error loading model artifacts: " ++ exn_str e)) ;;
       ret (None, None)).

(** [@st.cache_resource] on a function without arguments: the body runs
    when the cache is empty and its return value is stored; afterwards the
    stored value is returned and the body does not run.  A call that raises
    stores nothing.  (On a hit Streamlit shows again the elements that the
    body displayed when it ran; the log of the model does not repeat them.) *)
Definition cache_resource (body : M (pyval * pyval)) : M (pyval * pyval) :=
  fun c =>
    match c with
    | Some r => Reply (Return r) c []
    | None =>
        let r := body c in
        match outcome_of r with
        | Return v => Reply (Return v) (Some v) (log_of r)
        | Raise e => r
        end
    end.

(** ** Section 4 of the script: the values of the sidebar widgets *)

Record widgets : Type := {
  rain_val : bool;       (* st.toggle *)
  temp_val : pyfloat;    (* st.slider(-10.0, 50.0, 25.0, 0.1) *)
  water_dist : Z;        (* st.slider(0, 1000, 792) *)
  gas_val : bool;        (* st.toggle *)
  wf_val : bool          (* st.toggle *)
}.

(** ** Section 5 of the script: the main dashboard *)

Definition input_data (i : widgets) : dataframe :=
  [[("gas_value", CInt (int_of_bool (gas_val i)));
    ("rain_value", CInt (int_of_bool (rain_val i)));
    ("temp_value", CFloat (temp_val i));
    ("water_dist", CFloat (float_of_int (water_dist i)));
    ("wf_value", CInt (int_of_bool (wf_val i)))]].

(** The six variables that the branch on [prediction == 0] assigns. *)
Record verdict : Type := {
  status_label : string;
  status_color : string;
  bg_color : string;
  result_icon : string;
  message : string;
  sub_message : string
}.

Definition map_prediction (prediction : label) : verdict :=
  if prediction =? 0 then
    {| status_label := "BLOCKED";
       status_color := "#ef4444";
       bg_color := "rgba(239, 68, 68, 0.1)";
       result_icon := "🚨";
       message := "CRITICAL OBSTRUCTION DETECTED";
       sub_message := "Immediate maintenance team dispatch required." |}
  else
    {| status_label := "NORMAL";
       status_color := "#22c55e";
       bg_color := "rgba(34, 197, 94, 0.1)";
       result_icon := "✅";
       message := "SYSTEM OPTIMAL";
       sub_message := "Water flow is unobstructed." |}.

Definition hero (v : verdict) : element :=
  hero_panel (bg_color v) (status_color v) (result_icon v) (status_label v)
             (message v) (sub_message v).

(** The mock confidence of line 211. *)
Definition mock_confidence (status_label : string) : pyfloat :=
  if String.eqb status_label "NORMAL" then 0.98%float else 0.85%float.

(** Lines 211 to 218: the mock value, replaced by [max(probs)] unless
    anything in the inner [try] raises. *)
Definition confidence_of (model : pyval) (scaled_input : ndarray2)
    (status_label : string) : M pyfloat :=
  let confidence := mock_confidence status_label in
  try_except
    (probs_all <- call_method model "predict_proba"
                    (model_predict_proba scaled_input)
                    (fun o => predict_proba o scaled_input) ;;
     probs <- lift (item0 probs_all) ;;
     lift (py_max probs))
    (fun _ => ret confidence).

(** Lines 151 to 223: the prediction is mapped and the result displayed. *)
Definition show_result (w : world) (i : widgets) (model : pyval)
    (scaled_input : ndarray2) (prediction : label) : M unit :=
  let v := map_prediction prediction in
  render w (hero v) ;;
  render w (columns [1; 1]) ;;
  render w (subheader "📡 Live Telemetry") ;;
  render w (columns_count 2) ;;
  render w (metric_temp (temp_val i) (temp_val i - 25)%float) ;;
  render w (metric_level (water_dist i)
              (if water_dist i <? 500 then "-12mm" else "Normal")) ;;
  render w (markdown "### Status Indicators") ;;
  render w (badges (rain_val i) (gas_val i) (wf_val i)) ;;
  render w (subheader "🧠 Model Confidence") ;;
  confidence <- confidence_of model scaled_input (status_label v) ;;
  render w (progress confidence (confidence * 100)%float) ;;
  render w (expander "🔍 View Raw Analysis Data") ;;
  render w (dataframe_view (input_data i)).

(** The body of the outer [try], lines 145 to 223. *)
Definition prediction_body (w : world) (i : widgets) (model scaler : pyval)
    : M unit :=
  scaled_input <- call_method scaler "transform"
                    (scaler_transform (input_data i))
                    (fun o => transform o (input_data i)) ;;
  predictions <- call_method model "predict" (model_predict scaled_input)
                   (fun o => predict o scaled_input) ;;
  prediction <- lift (item0 predictions) ;;
  show_result w i model scaled_input prediction.

(** Lines 144 to 227: the prediction block with its handler. *)
Definition prediction_block (w : world) (i : widgets) (model scaler : pyval)
    : M unit :=
  try_except (prediction_body w i model scaler)
    (fun e => show (error ("Prediction System Error: " ++ exn_str e))).

(** Lines 129 to 234. *)
Definition dashboard (w : world) (i : widgets) (model scaler : pyval)
    : M unit :=
  show (title "Drain Guard AI") ;;
  show (markdown "#### 🚀 Next-Gen Urban Drainage Monitoring System") ;;
  (if truthy model && truthy scaler
   then prediction_block w i model scaler
   else show (warning "Model not loaded. Please check server logs.")) ;;
  show (markdown "---") ;;
  show (caption
    "System v2.0 | Connecting to `drain_status_model.pkl` | Edunet Foundation").

(** One run of the script, which Streamlit starts on every interaction
    with the widget values of that moment.  The page configuration, the
    style sheet and the static text of the sidebar are left out. *)
Definition script (w : world) (i : widgets) : M unit :=
  artifacts <- cache_resource (load_artifacts w) ;;
  dashboard w i (fst artifacts) (snd artifacts).

(** What the call [load_artifacts()] of line 101 gives on the cache [c]. *)
Definition loaded (w : world) (c : cache_t) : reply (pyval * pyval) :=
  cache_resource (load_artifacts w) c.

(** The calls that the artifact loader logs. *)
Definition is_load_event (ev : event) : bool :=
  match ev with
  | Show (error _) | Call (joblib_load_call _) => true
  | _ => false
  end.

(** The probability that a row of [predict_proba] gives to the class of
    label [l].  This definition follows the words of the specification
    ("the probability of the returned status"), the script has no
    counterpart: scikit-learn orders the columns of the row by class label,
    so that with the labels 0 and 1 the class of label [l] has column [l]. *)
Definition proba_of_label (probs : list pyfloat) (l : label)
    : option pyfloat :=
  if l <? 0 then None else nth_error probs (Z.to_nat l).

(** A number in the interval from 0 to 1. *)
Definition unit_interval (p : pyfloat) : Prop :=
  PrimFloat.leb 0 p = true /\ PrimFloat.leb p 1 = true.

(** Every Streamlit call of the prediction block succeeds. *)
Definition renders (w : world) : Prop :=
  forall e, st_raises w e = None.

(** A run of the script on the cache the process holds. *)
Definition run (w : world) (i : widgets) (c : cache_t) : reply unit :=
  script w i c.

(** The interactions of a process, one after the other, each in the world
    of its moment: a run takes the cache the run before it left. *)
Fixpoint interactions (inputs : list (world * widgets)) (c : cache_t)
    : list (reply unit) :=
  match inputs with
  | [] => []
  | (w, i) :: rest =>
      let r := run w i c in
      r :: interactions rest (cache_of r)
  end.

(** ** What a page reports *)

(** The status of the first hero panel of a log, and the value of its
    first progress bar. *)
Fixpoint shown_status (l : list event) : option string :=
  match l with
  | [] => None
  | Show (hero_panel _ _ _ status_label _ _) :: _ => Some status_label
  | _ :: rest => shown_status rest
  end.

Fixpoint shown_confidence (l : list event) : option pyfloat :=
  match l with
  | [] => None
  | Show (progress value _) :: _ => Some value
  | _ :: rest => shown_confidence rest
  end.

(** ** Notions of the statements *)

(** A piece of the script that leaves the cache as it found it. *)
Definition keeps {A : Type} (m : M A) : Prop :=
  forall c, cache_of (m c) = c.

(** The warning of the [else] branch of line 230. *)
Definition model_not_loaded : event :=
  Show (warning "Model not loaded. Please check server logs.").

(** What a run without artifacts is: it returns, it warns, it displays no
    result and it calls no artifact. *)
Definition degraded (r : reply unit) : Prop :=
  outcome_of r = Return tt /\
  In model_not_loaded (log_of r) /\
  Forall (fun ev => is_pipeline_call ev = false) (log_of r) /\
  shown_status (log_of r) = None /\
  shown_confidence (log_of r) = None.

(** The prediction block logs the three calls of the pipeline, with the
    DataFrame of the widgets as the argument of the scaler, and Streamlit
    elements. *)
Definition block_event (i : widgets) (ev : event) : Prop :=
  match ev with
  | Call (scaler_transform X) => X = input_data i
  | Call (joblib_load_call _) => False
  | _ => True
  end.

(** ** Concrete artifacts and worlds *)

Definition no_attribute {A : Type} (name : string) : outcome A :=
  Raise (Exception "AttributeError"
           ("object has no attribute '" ++ name ++ "'")).

(** The float64 row that numpy makes of a DataFrame row. *)
Definition row_values (r : row) : list pyfloat :=
  map (fun kv => match snd kv with
                 | CInt z => float_of_int z
                 | CFloat f => f
                 end) r.

(** A scaler that leaves the values as they are. *)
Definition unit_scaler : pyobject :=
  {| truth := true;
     transform := fun X => Return (map row_values X);
     predict := fun _ => no_attribute "predict";
     predict_proba := fun _ => no_attribute "predict_proba" |}.

(** A classifier on the water distance (column 3): label 1 above 500 mm,
    label 0 otherwise, with the probabilities [proba] of the classes on
    each row, or without [predict_proba] when [proba] is [None]. *)
Definition level_label (r : list pyfloat) : label :=
  match nth_error r 3 with
  | Some d => if PrimFloat.ltb 500 d then 1 else 0
  | None => 0
  end.

Definition level_model (proba : option (list pyfloat -> list pyfloat))
    : pyobject :=
  {| truth := true;
     transform := fun _ => no_attribute "transform";
     predict := fun X => Return (map level_label X);
     predict_proba := fun X =>
       match proba with
       | Some f => Return (map f X)
       | None => no_attribute "predict_proba"
       end |}.

(** A classifier that answers the same label on every row. *)
Definition constant_model (l : label) : pyobject :=
  {| truth := true;
     transform := fun _ => no_attribute "transform";
     predict := fun X => Return (map (fun _ => l) X);
     predict_proba := fun _ => no_attribute "predict_proba" |}.

(** A scaler fitted on four columns: it refuses the five of the script. *)
Definition narrow_scaler : pyobject :=
  {| truth := true;
     transform := fun _ =>
       Raise (Exception "ValueError"
         "X has 5 features, but StandardScaler is expecting 4 features as input.");
     predict := fun _ => no_attribute "predict";
     predict_proba := fun _ => no_attribute "predict_proba" |}.

(** A classifier with a decision threshold of its own: it answers label 0
    on every row while its probabilities are 0.3 for class 0 and 0.7 for
    class 1. *)
Definition tuned_model : pyobject :=
  {| truth := true;
     transform := fun _ => no_attribute "transform";
     predict := fun X => Return (map (fun _ => 0) X);
     predict_proba := fun X => Return (map (fun _ => [0.3; 0.7]%float) X) |}.

(** Probabilities that follow the label of [level_model]. *)
Definition level_proba (r : list pyfloat) : list pyfloat :=
  if level_label r =? 1 then [0.2; 0.8]%float else [0.9; 0.1]%float.

(** A world whose two artifact files hold [model] and [scaler], and in
    which every Streamlit call succeeds. *)
Definition on_disk (model scaler : pyobject) : world :=
  {| script_dir := "/app";
     os_path_exists := fun _ => true;
     joblib_load := fun path =>
       if String.eqb path "/app/scaler.pkl" then Return (Some scaler)
       else Return (Some model);
     st_raises := fun _ => None |}.

(** A world in which the script directory holds no artifact file. *)
Definition empty_dir : world :=
  {| script_dir := "/app";
     os_path_exists := fun _ => false;
     joblib_load := fun _ =>
       Raise (Exception "FileNotFoundError" "No such file or directory");
     st_raises := fun _ => None |}.

(** A world whose files exist and whose model file is not a pickle. *)
Definition corrupt_model : world :=
  {| script_dir := "/app";
     os_path_exists := fun _ => true;
     joblib_load := fun path =>
       if String.eqb path "/app/scaler.pkl" then Return (Some unit_scaler)
       else Raise (Exception "UnpicklingError" "invalid load key, 'x'.");
     st_raises := fun _ => None |}.

(** A world like [on_disk] in which [st.progress] refuses a value outside
    the interval from 0.0 to 1.0. *)
Definition checking_progress (model scaler : pyobject) : world :=
  {| script_dir := "/app";
     os_path_exists := fun _ => true;
     joblib_load := fun path =>
       if String.eqb path "/app/scaler.pkl" then Return (Some scaler)
       else Return (Some model);
     st_raises := fun e =>
       match e with
       | progress value _ =>
           if PrimFloat.leb 0 value && PrimFloat.leb value 1 then None
           else Some (Exception "StreamlitAPIException"
                        "Progress Value has invalid value [0.0, 1.0]")
       | _ => None
       end |}.

(** A classifier whose [predict_proba] answers scores that are no
    probabilities. *)
Definition scoring_model : pyobject :=
  {| truth := true;
     transform := fun _ => no_attribute "transform";
     predict := fun X => Return (map (fun _ => 1) X);
     predict_proba := fun X => Return (map (fun _ => [-0.5; 1.5]%float) X) |}.

(** Widgets of a drain with the water 50 mm under the sensor, gas and no
    flow. *)
Definition congested_widgets : widgets :=
  {| rain_val := true; temp_val := 25.0%float; water_dist := 50;
     gas_val := true; wf_val := false |}.

(** The default values of the widgets. *)
Definition default_widgets : widgets :=
  {| rain_val := false; temp_val := 25.0%float; water_dist := 792;
     gas_val := false; wf_val := true |}.

(** ** Further notions and worlds *)

(** The two elements that open the dashboard (lines 129 and 130) and the
    two that close it (lines 233 and 234). *)
Definition page_header : list event :=
  [Show (title "Drain Guard AI");
   Show (markdown "#### 🚀 Next-Gen Urban Drainage Monitoring System")].

Definition page_footer : list event :=
  [Show (markdown "---");
   Show (caption
     "System v2.0 | Connecting to `drain_status_model.pkl` | Edunet Foundation")].


(** An element that is an error message. *)
Definition is_error (ev : event) : bool :=
  match ev with
  | Show (error _) => true
  | _ => false
  end.

(** A binary64 number that is NaN: the only one that differs from itself. *)
Definition is_nan (x : pyfloat) : bool := negb (PrimFloat.eqb x x).

(** An estimator that is false as a truth value, as an object with a
    [__len__] of 0 is: an ensemble without estimators. *)
Definition empty_ensemble : pyobject :=
  {| truth := false;
     transform := fun _ => no_attribute "transform";
     predict := fun X => Return (map (fun _ => 1) X);
     predict_proba := fun _ => no_attribute "predict_proba" |}.

(** A world in which the model file is there and the scaler file is not. *)
Definition model_only : world :=
  {| script_dir := "/app";
     os_path_exists := fun path =>
       String.eqb path "/app/drain_status_model.pkl";
     joblib_load := fun _ => Return (Some (level_model None));
     st_raises := fun _ => None |}.

(** A classifier whose [predict_proba] answers an array without rows, or
    rows without columns. *)
Definition hollow_model (rows : bool) : pyobject :=
  {| truth := true;
     transform := fun _ => no_attribute "transform";
     predict := fun X => Return (map level_label X);
     predict_proba := fun X =>
       Return (if rows then map (fun _ => []) X else []) |}.

(** * Properties *)

Local Open Scope list_scope.

(** ** The monad *)

Section Monad.
Context {A B : Type}.
Implicit Types (m : M A) (k : A -> M B) (c : cache_t).

Lemma bind_Return m k c a :
  outcome_of (m c) = Return a ->
  bind m k c =
    Reply (outcome_of (k a (cache_of (m c))))
          (cache_of (k a (cache_of (m c))))
          (log_of (m c) ++ log_of (k a (cache_of (m c)))).
Proof. intros H. unfold bind. rewrite H. reflexivity. Qed.

Lemma bind_Raise m k c e :
  outcome_of (m c) = Raise e ->
  bind m k c = Reply (Raise e) (cache_of (m c)) (log_of (m c)).
Proof. intros H. unfold bind. rewrite H. reflexivity. Qed.

Lemma log_of_bind m k c :
  log_of (bind m k c) =
    log_of (m c) ++
    match outcome_of (m c) with
    | Return a => log_of (k a (cache_of (m c)))
    | Raise _ => []
    end.
Proof.
  unfold bind. destruct (outcome_of (m c)); simpl; [reflexivity|].
  now rewrite app_nil_r.
Qed.

Lemma outcome_of_bind m k c :
  outcome_of (bind m k c) =
    match outcome_of (m c) with
    | Return a => outcome_of (k a (cache_of (m c)))
    | Raise e => Raise e
    end.
Proof. unfold bind. now destruct (outcome_of (m c)). Qed.

Lemma cache_of_bind m k c :
  cache_of (bind m k c) =
    match outcome_of (m c) with
    | Return a => cache_of (k a (cache_of (m c)))
    | Raise _ => cache_of (m c)
    end.
Proof. unfold bind. now destruct (outcome_of (m c)). Qed.
End Monad.

Section Try.
Context {A : Type}.
Implicit Types (m : M A) (h : exn -> M A) (c : cache_t).

Lemma log_of_try m h c :
  log_of (try_except m h c) =
    log_of (m c) ++
    match outcome_of (m c) with
    | Return _ => []
    | Raise e => log_of (h e (cache_of (m c)))
    end.
Proof.
  unfold try_except. destruct (outcome_of (m c)); simpl; [|reflexivity].
  now rewrite app_nil_r.
Qed.

Lemma outcome_of_try m h c :
  outcome_of (try_except m h c) =
    match outcome_of (m c) with
    | Return a => Return a
    | Raise e => outcome_of (h e (cache_of (m c)))
    end.
Proof.
  unfold try_except. destruct (outcome_of (m c)) eqn:E; simpl; auto.
Qed.

Lemma cache_of_try m h c :
  cache_of (try_except m h c) =
    match outcome_of (m c) with
    | Return _ => cache_of (m c)
    | Raise e => cache_of (h e (cache_of (m c)))
    end.
Proof. unfold try_except. now destruct (outcome_of (m c)). Qed.
End Try.

(** ** The artifact loader *)

(** What the body of [load_artifacts] does, by cases on the world. *)
Lemma load_artifacts_cases (w : world) (c : cache_t) :
  load_artifacts w c =
    if negb (os_path_exists w (model_path w))
       || negb (os_path_exists w (scaler_path w))
    then Reply (Return (None, None)) c
           [Show (error ("⚠️ Artifacts missing! Expected in: "
                         ++ script_dir w)%string)]
    else
      match joblib_load w (model_path w) with
      | Raise e =>
          Reply (Return (None, None)) c
            [Call (joblib_load_call (model_path w));
             Show (error ("❌ Error loading model artifacts: "
                          ++ exn_str e)%string)]
      | Return model =>
          match joblib_load w (scaler_path w) with
          | Raise e =>
              Reply (Return (None, None)) c
                [Call (joblib_load_call (model_path w));
                 Call (joblib_load_call (scaler_path w));
                 Show (error ("❌ Error loading model artifacts: "
                              ++ exn_str e)%string)]
          | Return scaler =>
              Reply (Return (model, scaler)) c
                [Call (joblib_load_call (model_path w));
                 Call (joblib_load_call (scaler_path w))]
          end
      end.
Proof.
  unfold load_artifacts, try_except, bind, invoke, show, emit, lift, ret.
  destruct (negb _ || negb _); simpl; [reflexivity|].
  destruct (joblib_load w (model_path w)); simpl; [|reflexivity].
  destruct (joblib_load w (scaler_path w)); reflexivity.
Qed.

(** C4: [load_artifacts] returns on every world, it returns [(None, None)]
    when a file is absent or a deserialization raises, and what it returns
    otherwise is the pair that joblib loaded from two files that exist.  The
    cached function that the script calls returns as well. *)
Theorem load_artifacts_never_raises (w : world) (c : cache_t) :
  exists r : pyval * pyval,
    outcome_of (load_artifacts w c) = Return r /\
    (os_path_exists w (model_path w) = false \/
     os_path_exists w (scaler_path w) = false \/
     (exists e, joblib_load w (model_path w) = Raise e) \/
     (exists e, joblib_load w (scaler_path w) = Raise e) ->
     r = (None, None)) /\
    (r <> (None, None) ->
     os_path_exists w (model_path w) = true /\
     os_path_exists w (scaler_path w) = true /\
     joblib_load w (model_path w) = Return (fst r) /\
     joblib_load w (scaler_path w) = Return (snd r)) /\
    (exists r', outcome_of (loaded w c) = Return r').
Proof.
  assert (Hd : forall r0, outcome_of (load_artifacts w c) = Return r0 ->
               exists r', outcome_of (loaded w c) = Return r').
  { intros r0 H0. unfold loaded, cache_resource. destruct c as [r1|].
    - now exists r1.
    - rewrite H0. now exists r0. }
  generalize Hd. clear Hd. rewrite load_artifacts_cases.
  destruct (os_path_exists w (model_path w)) eqn:Em; simpl.
  2:{ intros Hd. exists (None, None). repeat split; eauto; congruence. }
  destruct (os_path_exists w (scaler_path w)) eqn:Es; simpl.
  2:{ intros Hd. exists (None, None). repeat split; eauto; congruence. }
  destruct (joblib_load w (model_path w)) as [model|e] eqn:Lm; simpl.
  2:{ intros Hd. exists (None, None). repeat split; eauto; congruence. }
  destruct (joblib_load w (scaler_path w)) as [scaler|e] eqn:Ls; simpl.
  2:{ intros Hd. exists (None, None). repeat split; eauto; congruence. }
  intros Hd. exists (model, scaler). repeat split; eauto.
  intros [H|[H|[[e H]|[e H]]]]; congruence.
Qed.

(** C4 at a directory without artifact files and at a model file that
    does not deserialize. *)
Lemma load_artifacts_never_raises_witness :
  outcome_of (load_artifacts empty_dir None) = Return (None, None) /\
  outcome_of (load_artifacts corrupt_model None) = Return (None, None).
Proof.
  split.
  - destruct (load_artifacts_never_raises empty_dir None)
      as (r & H1 & H2 & _).
    rewrite H1. f_equal. apply H2. left. reflexivity.
  - destruct (load_artifacts_never_raises corrupt_model None)
      as (r & H1 & H2 & _).
    rewrite H1. f_equal. apply H2. right. right. left.
    eexists. reflexivity.
Defined.

(** ** Pieces of the script that leave the cache alone *)

Lemma keeps_ret {A : Type} (a : A) : keeps (ret a).
Proof. intros c. reflexivity. Qed.

Lemma keeps_lift {A : Type} (o : outcome A) : keeps (lift o).
Proof. intros c. reflexivity. Qed.

Lemma keeps_emit (ev : event) : keeps (emit ev).
Proof. intros c. reflexivity. Qed.

Lemma keeps_bind {A B : Type} (m : M A) (k : A -> M B) :
  keeps m -> (forall a, keeps (k a)) -> keeps (bind m k).
Proof.
  intros Hm Hk c. rewrite cache_of_bind.
  destruct (outcome_of (m c)); rewrite ?Hk; apply Hm.
Qed.

Lemma keeps_try {A : Type} (m : M A) (h : exn -> M A) :
  keeps m -> (forall e, keeps (h e)) -> keeps (try_except m h).
Proof.
  intros Hm Hh c. rewrite cache_of_try.
  destruct (outcome_of (m c)); rewrite ?Hh; apply Hm.
Qed.

Lemma keeps_render (w : world) (e : element) : keeps (render w e).
Proof. unfold render. destruct (st_raises w e); intros c; reflexivity. Qed.

Lemma keeps_invoke {A : Type} (c0 : call) (o : outcome A) :
  keeps (invoke c0 o).
Proof. intros c. reflexivity. Qed.

Lemma keeps_call_method {A : Type} (v : pyval) (name : string) (c0 : call)
    (method : pyobject -> outcome A) :
  keeps (call_method v name c0 method).
Proof. destruct v; intros c; reflexivity. Qed.

Create HintDb keeps.
#[local] Hint Resolve keeps_ret keeps_lift keeps_emit keeps_render
  keeps_invoke keeps_call_method : keeps.

Ltac keeps_tac :=
  repeat first
    [ apply keeps_bind; [|intros ?]
    | apply keeps_try; [|intros ?]
    | solve [auto with keeps]
    | unfold show ].

Lemma keeps_confidence_of (model : pyval) (X : ndarray2) (st : string) :
  keeps (confidence_of model X st).
Proof. unfold confidence_of. keeps_tac. Qed.

Lemma keeps_show_result (w : world) (i : widgets) (model : pyval)
    (X : ndarray2) (l : label) :
  keeps (show_result w i model X l).
Proof.
  unfold show_result. keeps_tac.
Qed.

Lemma keeps_prediction_block (w : world) (i : widgets)
    (model scaler : pyval) :
  keeps (prediction_block w i model scaler).
Proof.
  unfold prediction_block, prediction_body. keeps_tac.
Qed.

(** The prediction block returns whatever happens in its body. *)
Lemma prediction_block_returns (w : world) (i : widgets)
    (model scaler : pyval) (c : cache_t) :
  outcome_of (prediction_block w i model scaler c) = Return tt.
Proof.
  unfold prediction_block. rewrite outcome_of_try.
  destruct (outcome_of _) as [[]|e]; reflexivity.
Qed.

(** The log of the prediction block: the log of its body, and the error
    message when the body raised. *)
Lemma prediction_block_log (w : world) (i : widgets)
    (model scaler : pyval) (c : cache_t) :
  log_of (prediction_block w i model scaler c) =
    log_of (prediction_body w i model scaler c) ++
    match outcome_of (prediction_body w i model scaler c) with
    | Return _ => []
    | Raise e =>
        [Show (error ("Prediction System Error: " ++ exn_str e)%string)]
    end.
Proof.
  unfold prediction_block. rewrite log_of_try.
  destruct (outcome_of _); reflexivity.
Qed.

(** The dashboard returns, leaves the cache alone, and displays its
    header, then the prediction block or the warning, then its footer. *)
Lemma dashboard_reply (w : world) (i : widgets) (model scaler : pyval)
    (c : cache_t) :
  dashboard w i model scaler c =
    Reply (Return tt) c
      ([Show (title "Drain Guard AI");
        Show (markdown
                "#### 🚀 Next-Gen Urban Drainage Monitoring System")] ++
       (if truthy model && truthy scaler
        then log_of (prediction_block w i model scaler c)
        else [Show (warning "Model not loaded. Please check server logs.")])
       ++ [Show (markdown "---");
           Show (caption
     "System v2.0 | Connecting to `drain_status_model.pkl` | Edunet Foundation")]).
Proof.
  unfold dashboard, show, bind at 1 2.
  cbn [emit outcome_of cache_of log_of].
  destruct (truthy model && truthy scaler).
  - unfold bind. rewrite prediction_block_returns.
    cbn. rewrite (keeps_prediction_block w i model scaler c).
    reflexivity.
  - reflexivity.
Qed.

(** ** A run: the cached loader, then the dashboard *)

Lemma load_artifacts_log (w : world) (c : cache_t) :
  forallb is_load_event (log_of (load_artifacts w c)) = true.
Proof.
  rewrite load_artifacts_cases.
  destruct (negb _ || negb _); [reflexivity|].
  destruct (joblib_load w (model_path w)); [|reflexivity].
  destruct (joblib_load w (scaler_path w)); reflexivity.
Qed.

Lemma load_artifacts_returns (w : world) (c : cache_t) :
  exists r, outcome_of (load_artifacts w c) = Return r.
Proof.
  rewrite load_artifacts_cases.
  destruct (negb _ || negb _); [now eexists|].
  destruct (joblib_load w (model_path w)); [|now eexists].
  destruct (joblib_load w (scaler_path w)); now eexists.
Qed.

(** The cached loader returns a pair and leaves it in the cache. *)
Lemma loaded_returns (w : world) (c : cache_t) :
  exists r,
    outcome_of (loaded w c) = Return r /\
    cache_of (loaded w c) = Some r /\
    forallb is_load_event (log_of (loaded w c)) = true.
Proof.
  unfold loaded, cache_resource. destruct c as [r|].
  - exists r. auto.
  - destruct (load_artifacts_returns w None) as [r Hr].
    exists r. rewrite Hr. cbn. repeat split.
    apply load_artifacts_log.
Qed.

(** On a filled cache the loader gives what the cache holds and logs
    nothing: the world is not looked at. *)
Lemma loaded_cached (w : world) (r : pyval * pyval) :
  loaded w (Some r) = Reply (Return r) (Some r) [].
Proof. reflexivity. Qed.

Lemma run_reply (w : world) (i : widgets) (c : cache_t) (r : pyval * pyval) :
  outcome_of (loaded w c) = Return r ->
  run w i c =
    Reply (Return tt) (Some r)
      (log_of (loaded w c) ++ log_of (dashboard w i (fst r) (snd r) (Some r))).
Proof.
  intros Hr. destruct (loaded_returns w c) as (r' & Hr' & Hc & _).
  assert (r' = r) by congruence. subst r'.
  unfold run, script. fold (loaded w).
  rewrite (bind_Return _ _ _ _ Hr), Hc.
  rewrite dashboard_reply. reflexivity.
Qed.

(** The loader displays no result and calls no artifact. *)
Lemma load_events_silent (l : list event) :
  forallb is_load_event l = true ->
  shown_status l = None /\ shown_confidence l = None /\
  Forall (fun ev => is_pipeline_call ev = false) l.
Proof.
  induction l as [|ev l IH]; cbn [forallb]; intros H.
  - repeat split. constructor.
  - apply andb_prop in H. destruct H as [Hev Hl].
    destruct (IH Hl) as (H1 & H2 & H3).
    destruct ev as [[]|[]]; try discriminate Hev; cbn;
      repeat split; auto.
Qed.

Lemma shown_status_app (l1 l2 : list event) :
  shown_status (l1 ++ l2) =
    match shown_status l1 with
    | Some st => Some st
    | None => shown_status l2
    end.
Proof.
  induction l1 as [|[[]|] l1 IH]; cbn; auto.
Qed.

Lemma shown_confidence_app (l1 l2 : list event) :
  shown_confidence (l1 ++ l2) =
    match shown_confidence l1 with
    | Some v => Some v
    | None => shown_confidence l2
    end.
Proof.
  induction l1 as [|[[]|] l1 IH]; cbn; auto.
Qed.

(** ** Unavailable artifacts *)

Lemma unavailable_run (w : world) (i : widgets) (c : cache_t) :
  outcome_of (loaded w c) = Return (None, None) ->
  degraded (run w i c) /\ cache_of (run w i c) = Some (None, None).
Proof.
  intros H. rewrite (run_reply w i c _ H).
  destruct (loaded_returns w c) as (r & _ & _ & Hlog).
  destruct (load_events_silent _ Hlog) as (Hs & Hc & Hp).
  unfold degraded. cbn [outcome_of log_of cache_of].
  rewrite dashboard_reply. cbn [log_of fst snd truthy andb app].
  repeat split.
  - apply in_or_app. right. cbn. unfold model_not_loaded. auto.
  - apply Forall_app. split; [exact Hp|]. repeat constructor.
  - rewrite shown_status_app, Hs. reflexivity.
  - rewrite shown_confidence_app, Hc. reflexivity.
Qed.

Lemma unavailable_interactions (inputs : list (world * widgets)) :
  Forall degraded (interactions inputs (Some (None, None))).
Proof.
  induction inputs as [|[w i] inputs IH]; cbn [interactions].
  - constructor.
  - destruct (unavailable_run w i (Some (None, None))) as [Hd Hc];
      [reflexivity|].
    constructor; [exact Hd|]. rewrite Hc. exact IH.
Qed.

(** C5: when the artifact loader returns [(None, None)], the run returns,
    displays the warning that the model is not loaded, and calls neither
    the scaler nor the classifier; the same holds for every later
    interaction of the process, whatever the files have become. *)
Theorem unavailable_never_classifies (w : world) (i : widgets) (c : cache_t)
    (inputs : list (world * widgets)) :
  outcome_of (loaded w c) = Return (None, None) ->
  degraded (run w i c) /\
  Forall degraded (interactions inputs (cache_of (run w i c))).
Proof.
  intros H. destruct (unavailable_run w i c H) as [Hd Hc].
  split; [exact Hd|]. rewrite Hc. apply unavailable_interactions.
Qed.

(** C5 in a directory without artifact files, with two more interactions
    after the files have appeared. *)
Lemma unavailable_never_classifies_witness :
  degraded (run empty_dir default_widgets None) /\
  Forall degraded
    (interactions
       [(on_disk (level_model None) unit_scaler, default_widgets);
        (empty_dir, default_widgets)]
       (cache_of (run empty_dir default_widgets None))).
Proof.
  apply (unavailable_never_classifies empty_dir default_widgets None).
  reflexivity.
Defined.

(** ** Properties of every logged call *)

Section Logged.
Variable P : event -> Prop.

Lemma logged_ret {A : Type} (a : A) (c : cache_t) :
  Forall P (log_of (ret a c)).
Proof. constructor. Qed.

Lemma logged_lift {A : Type} (o : outcome A) (c : cache_t) :
  Forall P (log_of (lift o c)).
Proof. constructor. Qed.

Lemma logged_emit (ev : event) (c : cache_t) :
  P ev -> Forall P (log_of (emit ev c)).
Proof. intros H. repeat constructor. exact H. Qed.

Lemma logged_bind {A B : Type} (m : M A) (k : A -> M B) (c : cache_t) :
  Forall P (log_of (m c)) ->
  (forall a, outcome_of (m c) = Return a ->
             Forall P (log_of (k a (cache_of (m c))))) ->
  Forall P (log_of (bind m k c)).
Proof.
  intros Hm Hk. rewrite log_of_bind. apply Forall_app. split; [exact Hm|].
  destruct (outcome_of (m c)); [auto|constructor].
Qed.

Lemma logged_try {A : Type} (m : M A) (h : exn -> M A) (c : cache_t) :
  Forall P (log_of (m c)) ->
  (forall e, outcome_of (m c) = Raise e ->
             Forall P (log_of (h e (cache_of (m c))))) ->
  Forall P (log_of (try_except m h c)).
Proof.
  intros Hm Hh. rewrite log_of_try. apply Forall_app. split; [exact Hm|].
  destruct (outcome_of (m c)); [constructor|auto].
Qed.

Lemma logged_render (w : world) (e : element) (c : cache_t) :
  P (Show e) -> Forall P (log_of (render w e c)).
Proof.
  intros H. unfold render. destruct (st_raises w e).
  - constructor.
  - now apply logged_emit.
Qed.

Lemma logged_invoke {A : Type} (c0 : call) (o : outcome A) (c : cache_t) :
  P (Call c0) -> Forall P (log_of (invoke c0 o c)).
Proof. intros H. repeat constructor. exact H. Qed.

Lemma logged_call_method {A : Type} (v : pyval) (name : string) (c0 : call)
    (method : pyobject -> outcome A) (c : cache_t) :
  P (Call c0) -> Forall P (log_of (call_method v name c0 method c)).
Proof.
  intros H. destruct v; [now apply logged_invoke|constructor].
Qed.
End Logged.

(** One step of a proof that every logged call has a property: through a
    bind or a handler, then the call itself. *)
Ltac logged_step :=
  first
    [ apply logged_bind; [|intros ? ?]
    | apply logged_try; [|intros ? ?]
    | apply logged_ret
    | apply logged_lift
    | apply logged_render
    | apply logged_call_method
    | apply logged_invoke
    | apply logged_emit ].

Lemma prediction_block_events (w : world) (i : widgets)
    (model scaler : pyval) (c : cache_t) :
  Forall (block_event i) (log_of (prediction_block w i model scaler c)).
Proof.
  unfold prediction_block, prediction_body, show_result, confidence_of, show.
  repeat logged_step; exact I || reflexivity.
Qed.

Lemma run_events (w : world) (i : widgets) (c : cache_t) :
  Forall (fun ev => is_load_event ev = true \/ block_event i ev)
         (log_of (run w i c)).
Proof.
  destruct (loaded_returns w c) as (r & Hr & _ & Hlog).
  rewrite (run_reply w i c r Hr). cbn [log_of].
  rewrite dashboard_reply. cbn [log_of].
  assert (Hshow : forall e l,
            Forall (fun ev => is_load_event ev = true \/ block_event i ev) l ->
            Forall (fun ev => is_load_event ev = true \/ block_event i ev)
                   (Show e :: l)).
  { intros e l Hl. constructor; [right; exact I|exact Hl]. }
  repeat (apply Forall_app; split).
  - rewrite forallb_forall in Hlog. apply Forall_forall. auto.
  - repeat apply Hshow. constructor.
  - destruct (truthy (fst r) && truthy (snd r)).
    + eapply Forall_impl; [|apply prediction_block_events]. cbn. auto.
    + repeat apply Hshow. constructor.
  - repeat apply Hshow. constructor.
Qed.

(** ** The feature vector *)

Lemma truthy_Some (v : pyval) :
  truthy v = true -> exists o, v = Some o /\ truth o = true.
Proof. destruct v as [o|]; [eauto|discriminate]. Qed.

(** With artifacts that are loaded and true, the block runs and its first
    call is the scaler on the DataFrame of the widgets. *)
Lemma run_calls_scaler (w : world) (i : widgets) (c : cache_t)
    (model scaler : pyval) :
  outcome_of (loaded w c) = Return (model, scaler) ->
  truthy model = true -> truthy scaler = true ->
  In (Call (scaler_transform (input_data i))) (log_of (run w i c)).
Proof.
  intros Hr Hm Hs. rewrite (run_reply w i c _ Hr). cbn [log_of fst snd].
  rewrite dashboard_reply, Hm, Hs. cbn [log_of andb].
  destruct (truthy_Some _ Hs) as (s & -> & _).
  rewrite prediction_block_log.
  unfold prediction_body. rewrite log_of_bind.
  apply in_or_app. right. apply in_or_app. right.
  apply in_or_app. left. apply in_or_app. left. apply in_or_app. left.
  cbn. auto.
Qed.

(** C2: whatever a run hands to the scaler is the one-row frame of the
    five columns in the order gas, rain, temperature, water distance, water
    flow, the three toggles as the integers 0 or 1 and the two sliders as
    floats; and a run with loaded artifacts does hand it over. *)
Theorem feature_vector_order (w : world) (i : widgets) (c : cache_t) :
  (forall X, In (Call (scaler_transform X)) (log_of (run w i c)) ->
     X = [[("gas_value"%string, CInt (if gas_val i then 1 else 0));
           ("rain_value"%string, CInt (if rain_val i then 1 else 0));
           ("temp_value"%string, CFloat (temp_val i));
           ("water_dist"%string, CFloat (float_of_int (water_dist i)));
           ("wf_value"%string, CInt (if wf_val i then 1 else 0))]]) /\
  (forall model scaler,
     outcome_of (loaded w c) = Return (model, scaler) ->
     truthy model = true -> truthy scaler = true ->
     In (Call (scaler_transform (input_data i))) (log_of (run w i c))).
Proof.
  split.
  - intros X HX. pose proof (run_events w i c) as H.
    rewrite Forall_forall in H. destruct (H _ HX) as [H1|H1].
    + discriminate H1.
    + cbn in H1. subst X. reflexivity.
  - apply run_calls_scaler.
Qed.

(** C2 at the default widgets, with a scaler and a classifier on disk. *)
Lemma feature_vector_order_witness :
  In (Call (scaler_transform
        [[("gas_value"%string, CInt 0); ("rain_value"%string, CInt 0);
          ("temp_value"%string, CFloat 25.0%float);
          ("water_dist"%string, CFloat 792.0%float);
          ("wf_value"%string, CInt 1)]]))
     (log_of (run (on_disk (level_model None) unit_scaler)
                  default_widgets None)).
Proof.
  apply (proj2 (feature_vector_order
                  (on_disk (level_model None) unit_scaler)
                  default_widgets None)
           (Some (level_model None)) (Some unit_scaler));
    reflexivity.
Defined.

(** ** The prediction block, step by step *)

(** The body of the block up to the display of the result, by cases on
    what the scaler and the classifier answer. *)
Lemma prediction_body_cases (w : world) (i : widgets) (m s : pyobject)
    (c : cache_t) :
  prediction_body w i (Some m) (Some s) c =
    match transform s (input_data i) with
    | Raise e => Reply (Raise e) c [Call (scaler_transform (input_data i))]
    | Return X =>
        let calls := [Call (scaler_transform (input_data i));
                      Call (model_predict X)] in
        match predict m X with
        | Raise e => Reply (Raise e) c calls
        | Return [] =>
            Reply (Raise (Exception "IndexError"
                     "index 0 is out of bounds for axis 0 with size 0"))
                  c calls
        | Return (l :: _) =>
            let r := show_result w i (Some m) X l c in
            Reply (outcome_of r) (cache_of r) (calls ++ log_of r)
        end
    end.
Proof.
  unfold prediction_body, call_method, invoke, bind, emit, lift.
  cbn [outcome_of cache_of log_of].
  destruct (transform s (input_data i)) as [X|e]; cbn; [|reflexivity].
  destruct (predict m X) as [[|l ls]|e]; cbn; reflexivity.
Qed.

(** The status that the display of a result shows: the label of the
    mapped prediction, unless the first Streamlit call raised. *)
Lemma show_result_status (w : world) (i : widgets) (model : pyval)
    (X : ndarray2) (l : label) (c : cache_t) :
  shown_status (log_of (show_result w i model X l c)) =
    match st_raises w (hero (map_prediction l)) with
    | Some _ => None
    | None => Some (status_label (map_prediction l))
    end.
Proof.
  unfold show_result. rewrite log_of_bind. unfold render at 1 2.
  destruct (st_raises w (hero (map_prediction l))); reflexivity.
Qed.

(** The status that a run shows once the classifier has answered. *)
Lemma run_status (w : world) (i : widgets) (c : cache_t) (m s : pyobject)
    (X : ndarray2) (l : label) (ls : list label) :
  outcome_of (loaded w c) = Return (Some m, Some s) ->
  truth m = true -> truth s = true ->
  transform s (input_data i) = Return X ->
  predict m X = Return (l :: ls) ->
  shown_status (log_of (run w i c)) =
    match st_raises w (hero (map_prediction l)) with
    | Some _ => None
    | None => Some (status_label (map_prediction l))
    end.
Proof.
  intros Hr Hm Hs HX Hl.
  destruct (loaded_returns w c) as (r & Hr' & _ & Hlog).
  destruct (load_events_silent _ Hlog) as (Hsil & _ & _).
  rewrite (run_reply w i c _ Hr). cbn [log_of fst snd].
  rewrite dashboard_reply. cbn [log_of truthy]. rewrite Hm, Hs. cbn [andb].
  rewrite prediction_block_log, prediction_body_cases, HX, Hl.
  cbn [log_of outcome_of].
  rewrite !shown_status_app, Hsil. cbn [shown_status].
  rewrite show_result_status.
  destruct (st_raises w (hero (map_prediction l))); [|reflexivity].
  match goal with
  | |- context [match ?o with Return _ => _ | Raise _ => _ end] => destruct o
  end; reflexivity.
Qed.

(** ** The label mapping *)

(** C1: label 0 is mapped to BLOCKED and label 1 to NORMAL, and this is the
    status that a run displays whenever the classifier answers 0 or 1 (and
    Streamlit displays the panel). *)
Theorem label_mapping_fixed (w : world) (i : widgets) (c : cache_t)
    (m s : pyobject) (X : ndarray2) (l : label) (ls : list label) :
  outcome_of (loaded w c) = Return (Some m, Some s) ->
  truth m = true -> truth s = true ->
  transform s (input_data i) = Return X ->
  predict m X = Return (l :: ls) ->
  st_raises w (hero (map_prediction l)) = None ->
  status_label (map_prediction 0) = "BLOCKED"%string /\
  status_label (map_prediction 1) = "NORMAL"%string /\
  (l = 0 -> shown_status (log_of (run w i c)) = Some "BLOCKED"%string) /\
  (l = 1 -> shown_status (log_of (run w i c)) = Some "NORMAL"%string).
Proof.
  intros Hr Hm Hs HX Hl Hst.
  rewrite (run_status w i c m s X l ls Hr Hm Hs HX Hl), Hst.
  repeat split; intros ->; reflexivity.
Qed.

(** C1 at a classifier that answers 0 on the congested drain and 1 on the
    default one. *)
Lemma label_mapping_fixed_witness :
  shown_status
    (log_of (run (on_disk (level_model None) unit_scaler)
                 congested_widgets None)) = Some "BLOCKED"%string /\
  shown_status
    (log_of (run (on_disk (level_model None) unit_scaler)
                 default_widgets None)) = Some "NORMAL"%string.
Proof.
  split.
  - refine (proj1 (proj2 (proj2
      (label_mapping_fixed (on_disk (level_model None) unit_scaler)
         congested_widgets None (level_model None) unit_scaler
         _ 0 [] _ _ _ _ _ _))) _); reflexivity.
  - refine (proj2 (proj2 (proj2
      (label_mapping_fixed (on_disk (level_model None) unit_scaler)
         default_widgets None (level_model None) unit_scaler
         _ 1 [] _ _ _ _ _ _))) _); reflexivity.
Defined.

(** C10: every label other than 0 gives NORMAL and only 0 gives BLOCKED,
    in the mapping and in what a run displays. *)
Theorem nonzero_label_is_normal (w : world) (i : widgets) (c : cache_t)
    (m s : pyobject) (X : ndarray2) (p : label) (ps : list label) :
  outcome_of (loaded w c) = Return (Some m, Some s) ->
  truth m = true -> truth s = true ->
  transform s (input_data i) = Return X ->
  predict m X = Return (p :: ps) ->
  (p <> 0 -> status_label (map_prediction p) = "NORMAL"%string) /\
  (status_label (map_prediction p) = "BLOCKED"%string <-> p = 0) /\
  (p <> 0 -> st_raises w (hero (map_prediction p)) = None ->
   shown_status (log_of (run w i c)) = Some "NORMAL"%string) /\
  (shown_status (log_of (run w i c)) = Some "BLOCKED"%string -> p = 0).
Proof.
  intros Hr Hm Hs HX Hl.
  rewrite (run_status w i c m s X p ps Hr Hm Hs HX Hl).
  assert (Hmap : p <> 0 -> status_label (map_prediction p) = "NORMAL"%string).
  { intros Hp. unfold map_prediction.
    destruct (Z.eqb_spec p 0); [contradiction|reflexivity]. }
  repeat split.
  - exact Hmap.
  - intros Hb. destruct (Z.eq_dec p 0) as [|Hp]; [assumption|].
    rewrite (Hmap Hp) in Hb. discriminate Hb.
  - intros ->. reflexivity.
  - intros Hp ->. now rewrite (Hmap Hp).
  - destruct (st_raises w (hero (map_prediction p))); [discriminate|].
    intros [= Hb]. destruct (Z.eq_dec p 0) as [|Hp]; [assumption|].
    rewrite (Hmap Hp) in Hb. discriminate Hb.
Qed.

(** C10 at a classifier that answers 7. *)
Lemma nonzero_label_is_normal_witness :
  shown_status
    (log_of (run (on_disk (constant_model 7) unit_scaler) default_widgets None))
  = Some "NORMAL"%string.
Proof.
  refine (proj1 (proj2 (proj2
    (nonzero_label_is_normal (on_disk (constant_model 7) unit_scaler)
       default_widgets None (constant_model 7) unit_scaler
       _ 7 [] _ _ _ _ _))) _ _); try reflexivity.
  discriminate.
Defined.

(** ** Failures of the prediction block *)

Lemma run_returns (w : world) (i : widgets) (c : cache_t) :
  outcome_of (run w i c) = Return tt.
Proof.
  destruct (loaded_returns w c) as (r & Hr & _).
  now rewrite (run_reply w i c r Hr).
Qed.

(** An exception of the body of the block ends as the error message of
    the handler. *)
Lemma run_reports (w : world) (i : widgets) (c : cache_t) (m s : pyobject)
    (e : exn) :
  outcome_of (loaded w c) = Return (Some m, Some s) ->
  truth m = true -> truth s = true ->
  outcome_of (prediction_body w i (Some m) (Some s) (Some (Some m, Some s)))
    = Raise e ->
  In (Show (error ("Prediction System Error: " ++ exn_str e)%string))
     (log_of (run w i c)).
Proof.
  intros Hr Hm Hs He. rewrite (run_reply w i c _ Hr). cbn [log_of fst snd].
  rewrite dashboard_reply. cbn [log_of truthy]. rewrite Hm, Hs. cbn [andb].
  rewrite prediction_block_log.
  match goal with
  | |- context [match ?o with Return _ => _ | Raise _ => _ end] =>
      replace o with (@Raise unit e) by (symmetry; exact He)
  end.
  apply in_or_app. right. apply in_or_app. right.
  apply in_or_app. left. apply in_or_app. right. cbn. auto.
Qed.

(** C6: with loaded artifacts a run returns whatever the scaler, the
    classifier and Streamlit do; an exception of the scaler, of the
    classifier, of the indexing of its answer or of the display of the
    result is displayed as the message "Prediction System Error: ..." with
    its text; the cache holds the same artifacts afterwards, so that a later
    run on a reading that the artifacts accept displays its status. *)
Theorem prediction_failure_is_reported (w : world) (i : widgets)
    (c : cache_t) (m s : pyobject) :
  outcome_of (loaded w c) = Return (Some m, Some s) ->
  truth m = true -> truth s = true ->
  let reported e :=
    In (Show (error ("Prediction System Error: " ++ exn_str e)%string))
       (log_of (run w i c)) in
  outcome_of (run w i c) = Return tt /\
  cache_of (run w i c) = Some (Some m, Some s) /\
  (forall e, transform s (input_data i) = Raise e -> reported e) /\
  (forall X e, transform s (input_data i) = Return X ->
     predict m X = Raise e -> reported e) /\
  (forall X, transform s (input_data i) = Return X ->
     predict m X = Return [] ->
     reported (Exception "IndexError"
                 "index 0 is out of bounds for axis 0 with size 0")) /\
  (forall X l ls e, transform s (input_data i) = Return X ->
     predict m X = Return (l :: ls) ->
     outcome_of (show_result w i (Some m) X l (Some (Some m, Some s)))
       = Raise e ->
     reported e) /\
  (forall X l ls e, transform s (input_data i) = Return X ->
     predict m X = Return (l :: ls) ->
     st_raises w (hero (map_prediction l)) = Some e ->
     reported e) /\
  (forall w' i' X l ls,
     transform s (input_data i') = Return X ->
     predict m X = Return (l :: ls) ->
     st_raises w' (hero (map_prediction l)) = None ->
     shown_status (log_of (run w' i' (cache_of (run w i c))))
       = Some (status_label (map_prediction l))).
Proof.
  intros Hr Hm Hs reported.
  assert (Hc : cache_of (run w i c) = Some (Some m, Some s)).
  { now rewrite (run_reply w i c _ Hr). }
  assert (Hrep : forall e,
    outcome_of (prediction_body w i (Some m) (Some s)
                  (Some (Some m, Some s))) = Raise e -> reported e).
  { intros e He. exact (run_reports w i c m s e Hr Hm Hs He). }
  split; [apply run_returns|]. split; [exact Hc|].
  repeat split.
  - intros e He. apply Hrep. rewrite prediction_body_cases, He. reflexivity.
  - intros X e HX He. apply Hrep.
    rewrite prediction_body_cases, HX, He. reflexivity.
  - intros X HX He. apply Hrep.
    rewrite prediction_body_cases, HX, He. reflexivity.
  - intros X l ls e HX Hl He. apply Hrep.
    rewrite prediction_body_cases, HX, Hl. exact He.
  - intros X l ls e HX Hl He. apply Hrep.
    rewrite prediction_body_cases, HX, Hl. cbn [outcome_of].
    unfold show_result. rewrite outcome_of_bind. unfold render at 1.
    rewrite He. reflexivity.
  - intros w' i' X l ls HX Hl Hst. rewrite Hc.
    rewrite (run_status w' i' (Some (Some m, Some s)) m s X l ls
               (f_equal outcome_of (loaded_cached w' _)) Hm Hs HX Hl), Hst.
    reflexivity.
Qed.

(** C6 at a scaler that refuses the five columns, and at a progress bar
    that refuses the value it is given. *)
Lemma prediction_failure_is_reported_witness :
  In (Show (error
       "Prediction System Error: X has 5 features, but StandardScaler is expecting 4 features as input."))
     (log_of (run (on_disk (level_model None) narrow_scaler)
                  default_widgets None)) /\
  cache_of (run (on_disk (level_model None) narrow_scaler)
                default_widgets None)
    = Some (Some (level_model None), Some narrow_scaler) /\
  In (Show (error
       "Prediction System Error: Progress Value has invalid value [0.0, 1.0]"))
     (log_of (run (checking_progress scoring_model unit_scaler)
                  default_widgets None)).
Proof.
  pose proof (prediction_failure_is_reported
                (on_disk (level_model None) narrow_scaler)
                default_widgets None (level_model None) narrow_scaler
                eq_refl eq_refl eq_refl) as (_ & Hc & Ht & _).
  pose proof (prediction_failure_is_reported
                (checking_progress scoring_model unit_scaler)
                default_widgets None scoring_model unit_scaler
                eq_refl eq_refl eq_refl) as (_ & _ & _ & _ & _ & Hshow & _).
  split; [exact (Ht _ eq_refl)|]. split; [exact Hc|].
  exact (Hshow _ 1 [] _ eq_refl eq_refl eq_refl).
Defined.

(** ** The order of binary64 numbers *)

Lemma SFcompare_Lt_trans (x y z : spec_float) :
  SFcompare x y = Some Lt -> SFcompare y z = Some Lt ->
  SFcompare x z = Some Lt.
Proof.
  destruct x as [sx|sx| |sx mx ex], y as [sy|sy| |sy my ey],
           z as [sz|sz| |sz mz ez];
    try destruct sx; try destruct sy; try destruct sz; cbn;
    try discriminate; try reflexivity;
    change (Pos.compare_cont Eq) with Pos.compare;
    intros H1 H2; injection H1 as H1; injection H2 as H2; f_equal;
    destruct (Z.compare_spec ex ey), (Z.compare_spec ey ez),
             (Z.compare_spec ex ez);
    subst; try discriminate; try reflexivity; try lia;
    try (destruct (Pos.compare_spec mx my), (Pos.compare_spec my mz),
                  (Pos.compare_spec mx mz);
         subst; cbn in *; try discriminate; try reflexivity; lia).
Qed.

Lemma SFcompare_Gt_Lt (x y : spec_float) :
  SFcompare x y = Some Gt -> SFcompare y x = Some Lt.
Proof.
  destruct x as [sx|sx| |sx mx ex], y as [sy|sy| |sy my ey];
    try destruct sx; try destruct sy; cbn;
    try discriminate; try reflexivity;
    change (Pos.compare_cont Eq) with Pos.compare;
    intros H1; injection H1 as H1; f_equal;
    rewrite (Z.compare_antisym ex ey), (Pos.compare_antisym mx my);
    destruct (ex ?= ey); cbn in *; try discriminate; try reflexivity;
    destruct (mx ?= my)%positive; cbn in *; try discriminate; reflexivity.
Qed.

Lemma SFcompare_refl (x : spec_float) :
  SFcompare x x = Some Eq \/ SFcompare x x = None.
Proof.
  destruct x as [sx|sx| |sx mx ex]; try destruct sx; cbn; auto;
    change (Pos.compare_cont Eq) with Pos.compare;
    rewrite Z.compare_refl, Pos.compare_refl; auto.
Qed.

Lemma ltb_trans (a b c : pyfloat) :
  PrimFloat.ltb a b = true -> PrimFloat.ltb b c = true ->
  PrimFloat.ltb a c = true.
Proof.
  rewrite !ltb_spec. unfold SFltb.
  destruct (SFcompare (Prim2SF a) (Prim2SF b)) as [[]|] eqn:E1;
    try discriminate.
  destruct (SFcompare (Prim2SF b) (Prim2SF c)) as [[]|] eqn:E2;
    try discriminate.
  now rewrite (SFcompare_Lt_trans _ _ _ E1 E2).
Qed.

Lemma ltb_irrefl (a : pyfloat) : PrimFloat.ltb a a = false.
Proof.
  rewrite ltb_spec. unfold SFltb.
  destruct (SFcompare_refl (Prim2SF a)) as [-> | ->]; reflexivity.
Qed.

(** A number that compares with another one is not NaN. *)
Lemma leb_not_nan (a b : pyfloat) :
  PrimFloat.leb a b = true -> PrimFloat.eqb b b = true.
Proof.
  rewrite leb_spec, eqb_spec. unfold SFleb, SFeqb.
  destruct (SFcompare_refl (Prim2SF b)) as [-> | E]; [reflexivity|].
  destruct (Prim2SF a), (Prim2SF b) as [sb|sb| |sb mb eb];
    try destruct sb; cbn in *; discriminate.
Qed.

(** Two numbers that are not NaN and of which neither is less than the
    other are equal as numbers. *)
Lemma eqb_of_not_ltb (a b : pyfloat) :
  PrimFloat.eqb a a = true -> PrimFloat.eqb b b = true ->
  PrimFloat.ltb a b = false -> PrimFloat.ltb b a = false ->
  PrimFloat.eqb a b = true.
Proof.
  rewrite !eqb_spec, !ltb_spec. unfold SFeqb, SFltb.
  intros Ha Hb.
  destruct (SFcompare (Prim2SF a) (Prim2SF b)) as [[]|] eqn:E;
    try discriminate; auto.
  - intros _. rewrite (SFcompare_Gt_Lt _ _ E). discriminate.
  - destruct (Prim2SF a), (Prim2SF b); cbn in *; discriminate.
Qed.

(** ** The builtin [max] *)

Lemma max_from_In (items : list pyfloat) :
  forall m, In (max_from m items) (m :: items).
Proof.
  induction items as [|x rest IH]; intros m; cbn [max_from].
  - left. reflexivity.
  - destruct (IH (if PrimFloat.ltb m x then x else m)) as [H|H].
    + destruct (PrimFloat.ltb m x); rewrite <- H; cbn; auto.
    + right. right. exact H.
Qed.

(** The result is the first item or greater than it. *)
Lemma max_from_ge (items : list pyfloat) :
  forall m, max_from m items = m \/
            PrimFloat.ltb m (max_from m items) = true.
Proof.
  induction items as [|x rest IH]; intros m; cbn [max_from].
  - left. reflexivity.
  - destruct (PrimFloat.ltb m x) eqn:E.
    + right. destruct (IH x) as [-> | H]; [exact E|].
      exact (ltb_trans _ _ _ E H).
    + apply IH.
Qed.

(** No item compares greater than the result. *)
Lemma max_from_upper (items : list pyfloat) :
  forall m q, In q (m :: items) ->
              PrimFloat.ltb (max_from m items) q = false.
Proof.
  induction items as [|x rest IH]; intros m q Hq; cbn [max_from].
  - destruct Hq as [<- | []]. apply ltb_irrefl.
  - destruct Hq as [<- | [<- | Hq]].
    + destruct (PrimFloat.ltb m x) eqn:E.
      * destruct (PrimFloat.ltb (max_from x rest) m) eqn:E'; [|reflexivity].
        rewrite <- (IH x x (or_introl eq_refl)).
        symmetry. exact (ltb_trans _ _ _ E' E).
      * apply IH. left. reflexivity.
    + destruct (PrimFloat.ltb m x) eqn:E.
      * apply IH. left. reflexivity.
      * destruct (max_from_ge rest m) as [-> | H]; [exact E|].
        destruct (PrimFloat.ltb (max_from m rest) x) eqn:E'; [|reflexivity].
        rewrite <- E. symmetry. exact (ltb_trans _ _ _ H E').
    + apply IH. right. exact Hq.
Qed.

(** ** The confidence *)

(** The inner [try] returns on every classifier: the maximum of the first
    row of probabilities, or the mock value when [predict_proba], the
    indexing or [max] raised. *)
Lemma confidence_of_cases (m : pyobject) (X : ndarray2) (st : string)
    (c : cache_t) :
  confidence_of (Some m) X st c =
    Reply (Return match predict_proba m X with
                  | Return ((item :: rest) :: _) => max_from item rest
                  | _ => mock_confidence st
                  end)
          c [Call (model_predict_proba X)].
Proof.
  unfold confidence_of, try_except, call_method, invoke, bind, emit, lift,
    ret.
  cbn [outcome_of cache_of log_of].
  destruct (predict_proba m X) as [[|[|item rest] P]|e]; reflexivity.
Qed.

(** The first element of a bind on a Streamlit call that is no progress
    bar: the confidence shown is the one of what follows, if anything
    follows. *)
Lemma shown_confidence_render (w : world) (e : element) (k : unit -> M unit)
    (c : cache_t) :
  shown_confidence [Show e] = None ->
  shown_confidence (log_of (bind (render w e) k c)) =
    match st_raises w e with
    | Some _ => None
    | None => shown_confidence (log_of (k tt c))
    end.
Proof.
  intros He. rewrite log_of_bind. unfold render.
  destruct (st_raises w e); [reflexivity|].
  cbn [emit log_of outcome_of cache_of].
  rewrite shown_confidence_app, He. reflexivity.
Qed.

Lemma shown_confidence_progress (w : world) (v p : pyfloat)
    (k : unit -> M unit) (c : cache_t) :
  shown_confidence (log_of (bind (render w (progress v p)) k c)) =
    match st_raises w (progress v p) with
    | Some _ => None
    | None => Some v
    end.
Proof.
  rewrite log_of_bind. unfold render.
  destruct (st_raises w (progress v p)); reflexivity.
Qed.

(** The confidence that the display of a result shows: the value of the
    inner [try], unless a Streamlit call raised before. *)
Lemma show_result_confidence (w : world) (i : widgets) (m : pyobject)
    (X : ndarray2) (l : label) (c : cache_t) (v : pyfloat) :
  outcome_of (confidence_of (Some m) X (status_label (map_prediction l)) c)
    = Return v ->
  (shown_confidence (log_of (show_result w i (Some m) X l c)) = None \/
   shown_confidence (log_of (show_result w i (Some m) X l c)) = Some v) /\
  (renders w ->
   shown_confidence (log_of (show_result w i (Some m) X l c)) = Some v).
Proof.
  intros Hv. rewrite confidence_of_cases in Hv. cbn [outcome_of] in Hv.
  injection Hv as Hv.
  unfold show_result.
  do 9 (rewrite shown_confidence_render by reflexivity).
  rewrite log_of_bind, confidence_of_cases. cbn [outcome_of cache_of log_of].
  rewrite Hv, shown_confidence_app. cbn [shown_confidence].
  rewrite shown_confidence_progress.
  split.
  - repeat match goal with
           | |- context [st_raises w ?e] => destruct (st_raises w e)
           end; auto.
  - intros Hw. rewrite !Hw. reflexivity.
Qed.

(** The confidence that a run shows once the classifier has answered. *)
Lemma run_confidence (w : world) (i : widgets) (c : cache_t) (m s : pyobject)
    (X : ndarray2) (l : label) (ls : list label) (v : pyfloat) :
  outcome_of (loaded w c) = Return (Some m, Some s) ->
  truth m = true -> truth s = true ->
  transform s (input_data i) = Return X ->
  predict m X = Return (l :: ls) ->
  outcome_of (confidence_of (Some m) X (status_label (map_prediction l))
                (Some (Some m, Some s))) = Return v ->
  (shown_confidence (log_of (run w i c)) = None \/
   shown_confidence (log_of (run w i c)) = Some v) /\
  (renders w -> shown_confidence (log_of (run w i c)) = Some v).
Proof.
  intros Hr Hm Hs HX Hl Hv.
  destruct (loaded_returns w c) as (r & Hr' & _ & Hlog).
  destruct (load_events_silent _ Hlog) as (_ & Hsil & _).
  rewrite (run_reply w i c _ Hr). cbn [log_of fst snd].
  rewrite dashboard_reply. cbn [log_of truthy]. rewrite Hm, Hs. cbn [andb].
  rewrite prediction_block_log, prediction_body_cases, HX, Hl.
  cbn [log_of outcome_of].
  rewrite !shown_confidence_app, Hsil. cbn [shown_confidence].
  match goal with
  | |- context [show_result w i (Some m) X l ?cc] =>
      destruct (show_result_confidence w i m X l cc v Hv) as [[H|H] Hlive]
  end.
  - split; [|intros Hw; rewrite (Hlive Hw); reflexivity].
    rewrite H.
    match goal with
    | |- context [match ?o with Return _ => _ | Raise _ => _ end] =>
        destruct o
    end; cbn; auto.
  - rewrite H. auto.
Qed.

(** C8: when [predict_proba] raises, the confidence that a run displays is
    the mock value of the displayed status, 0.98 for NORMAL and 0.85 for
    BLOCKED. *)
Theorem mock_confidence_without_proba (w : world) (i : widgets) (c : cache_t)
    (m s : pyobject) (X : ndarray2) (l : label) (ls : list label) (e : exn) :
  outcome_of (loaded w c) = Return (Some m, Some s) ->
  truth m = true -> truth s = true ->
  transform s (input_data i) = Return X ->
  predict m X = Return (l :: ls) ->
  predict_proba m X = Raise e ->
  let st := status_label (map_prediction l) in
  (st = "NORMAL"%string \/ st = "BLOCKED"%string) /\
  mock_confidence "NORMAL" = 0.98%float /\
  mock_confidence "BLOCKED" = 0.85%float /\
  (shown_confidence (log_of (run w i c)) = None \/
   shown_confidence (log_of (run w i c)) = Some (mock_confidence st)) /\
  (renders w ->
   shown_status (log_of (run w i c)) = Some st /\
   shown_confidence (log_of (run w i c)) = Some (mock_confidence st)).
Proof.
  intros Hr Hm Hs HX Hl He st.
  assert (Hv : outcome_of (confidence_of (Some m) X st (Some (Some m, Some s)))
               = Return (mock_confidence st)).
  { rewrite confidence_of_cases, He. reflexivity. }
  destruct (run_confidence w i c m s X l ls _ Hr Hm Hs HX Hl Hv)
    as [Hsafe Hlive].
  repeat split; try exact Hsafe.
  - unfold st, map_prediction. destruct (l =? 0); auto.
  - rewrite (run_status w i c m s X l ls Hr Hm Hs HX Hl).
    match goal with Hw : renders w |- _ => rewrite (Hw _) end.
    reflexivity.
  - apply Hlive. assumption.
Qed.

(** C8 at a classifier without [predict_proba], on the default reading
    (NORMAL) and on the congested one (BLOCKED). *)
Lemma mock_confidence_without_proba_witness :
  shown_confidence
    (log_of (run (on_disk (level_model None) unit_scaler)
                 default_widgets None)) = Some 0.98%float /\
  shown_confidence
    (log_of (run (on_disk (level_model None) unit_scaler)
                 congested_widgets None)) = Some 0.85%float.
Proof.
  split.
  - refine (proj2 (proj2 (proj2 (proj2 (proj2
      (mock_confidence_without_proba
         (on_disk (level_model None) unit_scaler) default_widgets None
         (level_model None) unit_scaler _ 1 [] _ _ _ _ _ _ _)))) _));
      try reflexivity.
    intros e. reflexivity.
  - refine (proj2 (proj2 (proj2 (proj2 (proj2
      (mock_confidence_without_proba
         (on_disk (level_model None) unit_scaler) congested_widgets None
         (level_model None) unit_scaler _ 0 [] _ _ _ _ _ _ _)))) _));
      try reflexivity.
    intros e. reflexivity.
Defined.

(** C7 as the specification has it fails: a classifier whose [predict]
    does not follow the greatest of its probabilities gets the status of
    its label, BLOCKED, and the confidence 0.7 of the other class, while the
    probability of the displayed status is 0.3. *)
Lemma confidence_not_of_status :
  let r := run (on_disk tuned_model unit_scaler) default_widgets None in
  shown_status (log_of r) = Some "BLOCKED"%string /\
  shown_confidence (log_of r) = Some 0.7%float /\
  proba_of_label [0.3; 0.7]%float 0 = Some 0.3%float /\
  shown_confidence (log_of r) <> proba_of_label [0.3; 0.7]%float 0.
Proof.
  repeat split; try reflexivity.
  intros H.
  apply (f_equal (fun o => match o with
                           | Some x => PrimFloat.eqb x 0.3
                           | None => false
                           end)) in H.
  vm_compute in H. discriminate H.
Qed.

(** C7, amended: when [predict_proba] answers with a row of
    probabilities, the confidence that a run displays is the [max] of the
    row: an item of the row that no item exceeds.  It lies between 0 and 1
    when the items of the row do, and it then equals the probability of
    the displayed status whenever no class is more probable than the
    predicted one. *)
Theorem confidence_is_max_probability (w : world) (i : widgets) (c : cache_t)
    (m s : pyobject) (X : ndarray2) (l : label) (ls : list label)
    (item : pyfloat) (rest : list pyfloat) (P : ndarray2) :
  outcome_of (loaded w c) = Return (Some m, Some s) ->
  truth m = true -> truth s = true ->
  transform s (input_data i) = Return X ->
  predict m X = Return (l :: ls) ->
  predict_proba m X = Return ((item :: rest) :: P) ->
  let probs := item :: rest in
  let v := max_from item rest in
  py_max probs = Return v /\
  (shown_confidence (log_of (run w i c)) = None \/
   shown_confidence (log_of (run w i c)) = Some v) /\
  (renders w -> shown_confidence (log_of (run w i c)) = Some v) /\
  In v probs /\
  (forall q, In q probs -> PrimFloat.ltb v q = false) /\
  (Forall unit_interval probs -> unit_interval v) /\
  (Forall unit_interval probs ->
   forall p, proba_of_label probs l = Some p ->
             (forall q, In q probs -> PrimFloat.ltb p q = false) ->
             PrimFloat.eqb v p = true).
Proof.
  intros Hr Hm Hs HX Hl HP probs v.
  assert (Hv : outcome_of (confidence_of (Some m) X
                 (status_label (map_prediction l)) (Some (Some m, Some s)))
               = Return v).
  { rewrite confidence_of_cases, HP. reflexivity. }
  destruct (run_confidence w i c m s X l ls _ Hr Hm Hs HX Hl Hv)
    as [Hsafe Hlive].
  assert (Hin : In v probs) by apply max_from_In.
  assert (Hup : forall q, In q probs -> PrimFloat.ltb v q = false).
  { intros q Hq. now apply max_from_upper. }
  split; [reflexivity|]. split; [exact Hsafe|]. split; [exact Hlive|].
  split; [exact Hin|]. split; [exact Hup|]. split.
  - intros Hall. rewrite Forall_forall in Hall. now apply Hall.
  - intros Hall p Hp Hmax. rewrite Forall_forall in Hall.
    unfold proba_of_label in Hp. destruct (l <? 0); [discriminate|].
    apply nth_error_In in Hp.
    apply eqb_of_not_ltb.
    + exact (leb_not_nan _ _ (proj1 (Hall v Hin))).
    + exact (leb_not_nan _ _ (proj1 (Hall p Hp))).
    + now apply Hup.
    + now apply Hmax.
Qed.

(** C7, amended, at a classifier whose label follows its probabilities:
    0.8 for NORMAL on the default reading. *)
Lemma confidence_is_max_probability_witness :
  shown_confidence
    (log_of (run (on_disk (level_model (Some level_proba)) unit_scaler)
                 default_widgets None)) = Some 0.8%float /\
  unit_interval 0.8%float /\
  PrimFloat.eqb 0.8 0.8 = true.
Proof.
  pose proof (confidence_is_max_probability
                (on_disk (level_model (Some level_proba)) unit_scaler)
                default_widgets None
                (level_model (Some level_proba)) unit_scaler
                _ 1 [] 0.2%float [0.8%float] []
                eq_refl eq_refl eq_refl eq_refl eq_refl eq_refl)
    as (_ & _ & Hlive & _ & _ & Hunit & Hlabel).
  assert (Hall : Forall unit_interval [0.2; 0.8]%float).
  { repeat constructor. }
  split; [apply Hlive; intros e; reflexivity|].
  split; [exact (Hunit Hall)|].
  apply (Hlabel Hall 0.8%float eq_refl).
  intros q [<- | [<- | []]]; reflexivity.
Defined.

(** ** Determinism *)

(** The dashboard depends on the world through Streamlit only. *)
Lemma dashboard_world (w w' : world) (i : widgets) (model scaler : pyval) :
  st_raises w' = st_raises w ->
  dashboard w' i model scaler = dashboard w i model scaler.
Proof.
  intros H.
  unfold dashboard, prediction_block, prediction_body, show_result, render.
  rewrite H. reflexivity.
Qed.

(** A run on a filled cache. *)
Lemma run_cached (w : world) (i : widgets) (r : pyval * pyval) :
  run w i (Some r) =
    Reply (Return tt) (Some r)
          (log_of (dashboard w i (fst r) (snd r) (Some r))).
Proof.
  now rewrite (run_reply w i (Some r) r (f_equal outcome_of
                                            (loaded_cached w r))).
Qed.

(** C3: a second run with the same widgets, on the cache that the first
    run left, gives what the first run gave: the same outcome, the same
    cache, after the events of the loader the same calls of the artifacts
    with the same arguments and the same elements, and so the same status
    and the same confidence, whatever the files have become; and so does
    every run after it. *)
Theorem classification_is_deterministic (w : world) (i : widgets)
    (c : cache_t) (dir : string) (files : string -> bool)
    (unpickle : string -> outcome pyval) (n : nat) :
  let w' := {| script_dir := dir; os_path_exists := files;
               joblib_load := unpickle; st_raises := st_raises w |} in
  let r1 := run w i c in
  let r2 := run w' i (cache_of r1) in
  outcome_of r2 = outcome_of r1 /\
  cache_of r2 = cache_of r1 /\
  (exists l1 l2 d,
     log_of r1 = l1 ++ d /\ log_of r2 = l2 ++ d /\
     forallb is_load_event l1 = true /\ forallb is_load_event l2 = true) /\
  shown_status (log_of r2) = shown_status (log_of r1) /\
  shown_confidence (log_of r2) = shown_confidence (log_of r1) /\
  interactions (repeat (w', i) n) (cache_of r1) = repeat r2 n.
Proof.
  intros w' r1 r2.
  destruct (loaded_returns w c) as (r & Hr & _ & Hlog).
  destruct (load_events_silent _ Hlog) as (Hst & Hco & _).
  assert (H1 : r1 = Reply (Return tt) (Some r)
                 (log_of (loaded w c) ++
                  log_of (dashboard w i (fst r) (snd r) (Some r)))).
  { exact (run_reply w i c r Hr). }
  assert (H2 : run w' i (Some r) = Reply (Return tt) (Some r)
                 (log_of (dashboard w i (fst r) (snd r) (Some r)))).
  { rewrite run_cached. now rewrite (dashboard_world w w'). }
  assert (Hc : cache_of r1 = Some r) by now rewrite H1.
  unfold r2. rewrite Hc, H2, H1. cbn [outcome_of cache_of log_of].
  split; [reflexivity|]. split; [reflexivity|]. split; [|repeat split].
  - exists (log_of (loaded w c)), [],
           (log_of (dashboard w i (fst r) (snd r) (Some r))).
    repeat split. exact Hlog.
  - now rewrite shown_status_app, Hst.
  - now rewrite shown_confidence_app, Hco.
  - rewrite <- H2. clear. induction n as [|n IH]; cbn [repeat interactions].
    + reflexivity.
    + rewrite run_cached at 2. cbn [cache_of]. now rewrite IH.
Qed.

(** * Further properties of the script *)

(** ** The loader, step by step *)

Lemma append_cancel (a x y : string) :
  (a ++ x)%string = (a ++ y)%string -> x = y.
Proof.
  induction a as [|ch a IH]; cbn; intros H; [exact H|].
  injection H as H. exact (IH H).
Qed.

(** The model and the scaler are never the same file. *)
Lemma model_path_not_scaler_path (w : world) :
  model_path w <> scaler_path w.
Proof.
  unfold model_path, scaler_path, os_path_join. cbn [startswith_sep].
  change (Ascii.eqb "d" "/") with false.
  change (Ascii.eqb "s" "/") with false. cbv iota.
  destruct ((String.length (script_dir w) =? 0)%nat
            || endswith_sep (script_dir w));
    intros H; apply append_cancel in H; discriminate H.
Qed.

(** X1: the loader stops at the first failure.  When a file is missing,
    [joblib.load] is not called at all, also not on the file that is there;
    when the load of the model raises, the scaler file is not read; in both
    cases, and when the load of the scaler raises, the loader displays
    exactly one error message. *)
Theorem loader_stops_at_first_failure (w : world) (c : cache_t) :
  (os_path_exists w (model_path w) = false \/
   os_path_exists w (scaler_path w) = false ->
   (forall path, ~ In (Call (joblib_load_call path))
                      (log_of (load_artifacts w c))) /\
   filter is_error (log_of (load_artifacts w c)) =
     [Show (error ("⚠️ Artifacts missing! Expected in: "
                   ++ script_dir w)%string)]) /\
  (os_path_exists w (model_path w) = true ->
   os_path_exists w (scaler_path w) = true ->
   forall e, joblib_load w (model_path w) = Raise e ->
     ~ In (Call (joblib_load_call (scaler_path w)))
          (log_of (load_artifacts w c)) /\
     filter is_error (log_of (load_artifacts w c)) =
       [Show (error ("❌ Error loading model artifacts: "
                     ++ exn_str e)%string)]) /\
  (os_path_exists w (model_path w) = true ->
   os_path_exists w (scaler_path w) = true ->
   forall model e, joblib_load w (model_path w) = Return model ->
     joblib_load w (scaler_path w) = Raise e ->
     outcome_of (load_artifacts w c) = Return (None, None) /\
     filter is_error (log_of (load_artifacts w c)) =
       [Show (error ("❌ Error loading model artifacts: "
                     ++ exn_str e)%string)]).
Proof.
  rewrite load_artifacts_cases. split; [|split].
  - intros Hmiss.
    assert (E : negb (os_path_exists w (model_path w))
                || negb (os_path_exists w (scaler_path w)) = true).
    { destruct Hmiss as [-> | ->]; [reflexivity|apply orb_true_r]. }
    rewrite E. split; [|reflexivity].
    intros path [Hin|[]]. discriminate Hin.
  - intros Em Es e He. rewrite Em, Es, He. cbn. split; [|reflexivity].
    intros [Heq|[Heq|[]]]; [|discriminate Heq].
    injection Heq as Heq. exact (model_path_not_scaler_path w Heq).
  - intros Em Es model e Hm He. rewrite Em, Es, Hm, He. cbn.
    split; reflexivity.
Qed.

(** X1 where only the model file exists, and where the model file does not
    deserialize. *)
Lemma loader_stops_at_first_failure_witness :
  (forall path, ~ In (Call (joblib_load_call path))
                     (log_of (load_artifacts model_only None))) /\
  ~ In (Call (joblib_load_call "/app/scaler.pkl"))
       (log_of (load_artifacts corrupt_model None)).
Proof.
  split.
  - apply (proj1 (loader_stops_at_first_failure model_only None)).
    right. reflexivity.
  - apply (proj1 (proj2 (loader_stops_at_first_failure corrupt_model None))
             eq_refl eq_refl
             (Exception "UnpicklingError" "invalid load key, 'x'.")).
    reflexivity.
Defined.

(** ** The frame of the page *)

(** The log of a run: the events of the loader, the header, the prediction
    block or the warning, the footer. *)
Lemma run_log (w : world) (i : widgets) (c : cache_t) (r : pyval * pyval) :
  outcome_of (loaded w c) = Return r ->
  log_of (run w i c) =
    log_of (loaded w c) ++ page_header ++
    (if truthy (fst r) && truthy (snd r)
     then log_of (prediction_block w i (fst r) (snd r) (Some r))
     else [model_not_loaded]) ++ page_footer.
Proof.
  intros Hr. rewrite (run_reply w i c r Hr). cbn [log_of].
  rewrite dashboard_reply. reflexivity.
Qed.



(** ** The cache over the interactions of a process *)




(** ** Artifacts that are false *)

(** X4: artifacts that loaded but of which one is false as a truth value
    are treated as not loaded: the run warns that the model is not loaded,
    calls neither artifact and displays no result. *)
Theorem falsy_artifacts_are_not_used (w : world) (i : widgets) (c : cache_t)
    (model scaler : pyval) :
  outcome_of (loaded w c) = Return (model, scaler) ->
  truthy model && truthy scaler = false ->
  degraded (run w i c).
Proof.
  intros Hr Hf.
  destruct (loaded_returns w c) as (r & _ & _ & Hlog).
  destruct (load_events_silent _ Hlog) as (Hs & Hc & Hp).
  unfold degraded. rewrite (run_log w i c _ Hr). cbn [fst snd].
  rewrite Hf. split; [apply run_returns|]. repeat split.
  - apply in_or_app. right. apply in_or_app. right. cbn. auto.
  - apply Forall_app. split; [exact Hp|]. repeat constructor.
  - rewrite shown_status_app, Hs. reflexivity.
  - rewrite shown_confidence_app, Hc. reflexivity.
Qed.

(** X4 at a classifier that deserializes to an ensemble without
    estimators. *)
Lemma falsy_artifacts_are_not_used_witness :
  outcome_of (loaded (on_disk empty_ensemble unit_scaler) None)
    = Return (Some empty_ensemble, Some unit_scaler) /\
  degraded (run (on_disk empty_ensemble unit_scaler) default_widgets None).
Proof.
  split; [reflexivity|].
  apply (falsy_artifacts_are_not_used
           (on_disk empty_ensemble unit_scaler) default_widgets None
           (Some empty_ensemble) (Some unit_scaler)); reflexivity.
Defined.

(** ** The log of the prediction block *)

(** The log of the block, by cases on what the scaler and the classifier
    answer. *)
Lemma block_log_cases (w : world) (i : widgets) (m s : pyobject)
    (c : cache_t) :
  log_of (prediction_block w i (Some m) (Some s) c) =
    match transform s (input_data i) with
    | Raise e =>
        [Call (scaler_transform (input_data i));
         Show (error ("Prediction System Error: " ++ exn_str e)%string)]
    | Return X =>
        match predict m X with
        | Raise e =>
            [Call (scaler_transform (input_data i)); Call (model_predict X);
             Show (error ("Prediction System Error: " ++ exn_str e)%string)]
        | Return [] =>
            [Call (scaler_transform (input_data i)); Call (model_predict X);
             Show (error
               "Prediction System Error: index 0 is out of bounds for axis 0 with size 0")]
        | Return (l :: _) =>
            [Call (scaler_transform (input_data i)); Call (model_predict X)]
            ++ log_of (show_result w i (Some m) X l c)
            ++ match outcome_of (show_result w i (Some m) X l c) with
               | Return _ => []
               | Raise e =>
                   [Show (error ("Prediction System Error: "
                                 ++ exn_str e)%string)]
               end
        end
    end.
Proof.
  rewrite prediction_block_log, prediction_body_cases.
  destruct (transform s (input_data i)) as [X|e]; [|reflexivity].
  destruct (predict m X) as [[|l ls]|e]; reflexivity.
Qed.

(** A displayed confidence comes after a displayed status, and is the value
    of the inner [try]. *)
Lemma show_result_confidence_inv (w : world) (i : widgets) (m : pyobject)
    (X : ndarray2) (l : label) (c : cache_t) (v : pyfloat) :
  shown_confidence (log_of (show_result w i (Some m) X l c)) = Some v ->
  st_raises w (hero (map_prediction l)) = None /\
  outcome_of (confidence_of (Some m) X (status_label (map_prediction l)) c)
    = Return v.
Proof.
  unfold show_result.
  do 9 (rewrite shown_confidence_render by reflexivity).
  rewrite log_of_bind, confidence_of_cases. cbn [outcome_of cache_of log_of].
  rewrite shown_confidence_app. cbn [shown_confidence].
  rewrite shown_confidence_progress.
  destruct (st_raises w (hero (map_prediction l))); [discriminate|].
  repeat match goal with
         | |- context [st_raises w ?e] => destruct (st_raises w e)
         end; try discriminate.
  intros [= <-]. split; reflexivity.
Qed.





(** The log of a run whose artifacts are loaded and true. *)
Lemma run_block_log (w : world) (i : widgets) (c : cache_t)
    (m s : pyobject) :
  outcome_of (loaded w c) = Return (Some m, Some s) ->
  truth m = true -> truth s = true ->
  log_of (run w i c) =
    log_of (loaded w c) ++ page_header ++
    log_of (prediction_block w i (Some m) (Some s) (Some (Some m, Some s)))
    ++ page_footer.
Proof.
  intros Hr Hm Hs. rewrite (run_log w i c _ Hr). cbn [fst snd truthy].
  rewrite Hm, Hs. reflexivity.
Qed.

(** A loader that gives two objects has displayed no error. *)
Lemma loaded_without_error (w : world) (c : cache_t) (m s : pyobject) :
  outcome_of (loaded w c) = Return (Some m, Some s) ->
  filter is_error (log_of (loaded w c)) = [].
Proof.
  unfold loaded, cache_resource. destruct c as [r|]; [reflexivity|].
  rewrite load_artifacts_cases.
  destruct (negb _ || negb _); [discriminate|].
  destruct (joblib_load w (model_path w)); [|discriminate].
  destruct (joblib_load w (scaler_path w)); [|discriminate].
  reflexivity.
Qed.

(** ** The order of the calls of the pipeline *)



(** ** A display that fails half way *)

(** X6: when the status panel was displayed and a later Streamlit call of
    the block raises, the page keeps the status and ends, before the
    footer, with the error message of that call: the user sees a result and
    an error together. *)
Theorem status_stays_after_display_failure (w : world) (i : widgets)
    (c : cache_t) (m s : pyobject) (X : ndarray2) (l : label)
    (ls : list label) (e : exn) :
  outcome_of (loaded w c) = Return (Some m, Some s) ->
  truth m = true -> truth s = true ->
  transform s (input_data i) = Return X ->
  predict m X = Return (l :: ls) ->
  st_raises w (hero (map_prediction l)) = None ->
  outcome_of (show_result w i (Some m) X l (Some (Some m, Some s)))
    = Raise e ->
  shown_status (log_of (run w i c))
    = Some (status_label (map_prediction l)) /\
  exists before,
    log_of (run w i c) =
      before
      ++ [Show (error ("Prediction System Error: " ++ exn_str e)%string)]
      ++ page_footer.
Proof.
  intros Hr Hm Hs HX Hl Hst He. split.
  - now rewrite (run_status w i c m s X l ls Hr Hm Hs HX Hl), Hst.
  - rewrite (run_block_log w i c m s Hr Hm Hs), block_log_cases, HX, Hl.
    match goal with
    | |- context [match ?o with Return _ => _ | Raise _ => _ end] =>
        replace o with (@Raise unit e) by (symmetry; exact He)
    end.
    eexists. rewrite !app_assoc. reflexivity.
Qed.

(** X6 at a progress bar that refuses the score it is given: NORMAL is
    displayed, then the error. *)
Lemma status_stays_after_display_failure_witness :
  shown_status
    (log_of (run (checking_progress scoring_model unit_scaler)
                 default_widgets None)) = Some "NORMAL"%string /\
  exists before,
    log_of (run (checking_progress scoring_model unit_scaler)
                default_widgets None) =
      before
      ++ [Show (error
           "Prediction System Error: Progress Value has invalid value [0.0, 1.0]")]
      ++ page_footer.
Proof.
  exact (status_stays_after_display_failure
           (checking_progress scoring_model unit_scaler)
           default_widgets None scoring_model unit_scaler
           _ 1 [] _ eq_refl eq_refl eq_refl eq_refl eq_refl eq_refl eq_refl).
Defined.

(** ** A classifier without usable probabilities *)

Lemma outcome_of_render_bind (w : world) (e : element) (k : unit -> M unit)
    (c : cache_t) :
  renders w ->
  outcome_of (bind (render w e) k c) = outcome_of (k tt c).
Proof.
  intros Hw. rewrite outcome_of_bind. unfold render. rewrite Hw.
  reflexivity.
Qed.

(** With a Streamlit that does not raise, the display of a result
    returns. *)
Lemma show_result_returns (w : world) (i : widgets) (m : pyobject)
    (X : ndarray2) (l : label) (c : cache_t) :
  renders w -> outcome_of (show_result w i (Some m) X l c) = Return tt.
Proof.
  intros Hw. unfold show_result.
  do 9 (rewrite outcome_of_render_bind by exact Hw).
  rewrite outcome_of_bind, confidence_of_cases. cbn [outcome_of cache_of].
  do 2 (rewrite outcome_of_render_bind by exact Hw).
  unfold render. rewrite Hw. reflexivity.
Qed.

Lemma show_result_without_error (w : world) (i : widgets) (model : pyval)
    (X : ndarray2) (l : label) (c : cache_t) :
  filter is_error (log_of (show_result w i model X l c)) = [].
Proof.
  assert (H : Forall (fun ev => is_error ev = false)
                     (log_of (show_result w i model X l c))).
  { unfold show_result, confidence_of. repeat logged_step; reflexivity. }
  induction H as [|ev l' Hev _ IH]; cbn; [reflexivity|].
  now rewrite Hev.
Qed.

(** X7: the inner handler keeps every failure of the probabilities away
    from the user.  With a scaler and a classifier that answer and a
    Streamlit that does not raise, the page shows the status and a
    confidence and no error message, whatever [predict_proba] does; when
    [predict_proba] answers an array without rows or a first row without
    columns, the confidence is the mock value of the status. *)
Theorem proba_failure_is_silent (w : world) (i : widgets) (c : cache_t)
    (m s : pyobject) (X : ndarray2) (l : label) (ls : list label) :
  outcome_of (loaded w c) = Return (Some m, Some s) ->
  truth m = true -> truth s = true ->
  transform s (input_data i) = Return X ->
  predict m X = Return (l :: ls) ->
  renders w ->
  let st := status_label (map_prediction l) in
  filter is_error (log_of (run w i c)) = [] /\
  shown_status (log_of (run w i c)) = Some st /\
  (exists v, shown_confidence (log_of (run w i c)) = Some v) /\
  (forall P, predict_proba m X = Return [] \/
             predict_proba m X = Return ([] :: P) ->
             shown_confidence (log_of (run w i c))
               = Some (mock_confidence st)).
Proof.
  intros Hr Hm Hs HX Hl Hw st.
  assert (Hconf : forall v,
    outcome_of (confidence_of (Some m) X st (Some (Some m, Some s)))
      = Return v ->
    shown_confidence (log_of (run w i c)) = Some v).
  { intros v Hv.
    exact (proj2 (run_confidence w i c m s X l ls v Hr Hm Hs HX Hl Hv) Hw). }
  split; [|split; [|split]].
  - rewrite (run_block_log w i c m s Hr Hm Hs), block_log_cases, HX, Hl.
    rewrite !filter_app, (loaded_without_error w c m s Hr).
    rewrite show_result_without_error, show_result_returns by exact Hw.
    reflexivity.
  - now rewrite (run_status w i c m s X l ls Hr Hm Hs HX Hl), (Hw _).
  - eexists. apply Hconf. rewrite confidence_of_cases. reflexivity.
  - intros P HP. apply Hconf. rewrite confidence_of_cases.
    destruct HP as [-> | ->]; reflexivity.
Qed.

(** X7 at a classifier whose [predict_proba] answers no rows, and one
    whose rows have no columns. *)
Lemma proba_failure_is_silent_witness :
  shown_confidence
    (log_of (run (on_disk (hollow_model false) unit_scaler)
                 default_widgets None)) = Some 0.98%float /\
  shown_confidence
    (log_of (run (on_disk (hollow_model true) unit_scaler)
                 congested_widgets None)) = Some 0.85%float /\
  filter is_error
    (log_of (run (on_disk (hollow_model true) unit_scaler)
                 congested_widgets None)) = [].
Proof.
  assert (Hw : forall m s, renders (on_disk m s)) by (intros m s e; reflexivity).
  pose proof (proba_failure_is_silent
                (on_disk (hollow_model false) unit_scaler)
                default_widgets None (hollow_model false) unit_scaler
                _ 1 [] eq_refl eq_refl eq_refl eq_refl eq_refl (Hw _ _))
    as (_ & _ & _ & H1).
  pose proof (proba_failure_is_silent
                (on_disk (hollow_model true) unit_scaler)
                congested_widgets None (hollow_model true) unit_scaler
                _ 0 [] eq_refl eq_refl eq_refl eq_refl eq_refl (Hw _ _))
    as (H2 & _ & _ & H3).
  split; [exact (H1 [] (or_introl eq_refl))|].
  split; [exact (H3 [] (or_intror eq_refl))|exact H2].
Defined.

(** ** What every page satisfies *)

(** The artifacts of a run are either not usable or two true objects. *)
Lemma run_shape (w : world) (c : cache_t) :
  (exists r, outcome_of (loaded w c) = Return r /\
             truthy (fst r) && truthy (snd r) = false) \/
  (exists m s, outcome_of (loaded w c) = Return (Some m, Some s) /\
               truth m = true /\ truth s = true).
Proof.
  destruct (loaded_returns w c) as ([model scaler] & Hr & _).
  destruct (truthy model && truthy scaler) eqn:E.
  - right. apply andb_prop in E. destruct E as [Em Es].
    destruct (truthy_Some _ Em) as (m & -> & Hm).
    destruct (truthy_Some _ Es) as (s & -> & Hs).
    exists m, s. auto.
  - left. exists (model, scaler). auto.
Qed.

(** The log of a run whose artifacts are not usable. *)
Lemma run_falsy_log (w : world) (i : widgets) (c : cache_t)
    (r : pyval * pyval) :
  outcome_of (loaded w c) = Return r ->
  truthy (fst r) && truthy (snd r) = false ->
  log_of (run w i c) =
    log_of (loaded w c) ++ page_header ++ [model_not_loaded] ++ page_footer.
Proof.
  intros Hr Hf. rewrite (run_log w i c r Hr), Hf. reflexivity.
Qed.

(** A run whose artifacts are not usable warns and displays nothing
    else. *)
Lemma run_degraded (w : world) (i : widgets) (c : cache_t)
    (r : pyval * pyval) :
  outcome_of (loaded w c) = Return r ->
  truthy (fst r) && truthy (snd r) = false ->
  degraded (run w i c).
Proof.
  intros Hr Hf.
  destruct (loaded_returns w c) as (r' & _ & _ & Hlog).
  destruct (load_events_silent _ Hlog) as (Hs & Hc & Hp).
  unfold degraded. rewrite (run_falsy_log w i c r Hr Hf).
  split; [apply run_returns|]. repeat split.
  - apply in_or_app. right. apply in_or_app. right. cbn. auto.
  - apply Forall_app. split; [exact Hp|]. repeat constructor.
  - rewrite shown_status_app, Hs. reflexivity.
  - rewrite shown_confidence_app, Hc. reflexivity.
Qed.

Lemma loaded_log_events (w : world) (c : cache_t) (ev : event) :
  In ev (log_of (loaded w c)) -> is_load_event ev = true.
Proof.
  destruct (loaded_returns w c) as (r & _ & _ & Hlog).
  rewrite forallb_forall in Hlog. apply Hlog.
Qed.


(** The status and the confidence of a run whose classifier answered a
    label are those of the display of the result. *)
Lemma run_result_source (w : world) (i : widgets) (c : cache_t)
    (m s : pyobject) (X : ndarray2) (l : label) (ls : list label) :
  outcome_of (loaded w c) = Return (Some m, Some s) ->
  truth m = true -> truth s = true ->
  transform s (input_data i) = Return X ->
  predict m X = Return (l :: ls) ->
  exists cc,
    shown_confidence (log_of (run w i c)) =
      shown_confidence (log_of (show_result w i (Some m) X l cc)) /\
    In (Call (model_predict X)) (log_of (run w i c)).
Proof.
  intros Hr Hm Hs HX Hl.
  destruct (loaded_returns w c) as (r & _ & _ & Hlog).
  destruct (load_events_silent _ Hlog) as (_ & Hsil & _).
  rewrite (run_block_log w i c m s Hr Hm Hs), block_log_cases, HX, Hl.
  exists (Some (Some m, Some s)). split.
  - rewrite !shown_confidence_app, Hsil. cbn [shown_confidence page_header].
    match goal with
    | |- context [shown_confidence (log_of (show_result ?a ?b ?d ?e ?f ?g))] =>
        destruct (shown_confidence (log_of (show_result a b d e f g)))
    end; [reflexivity|].
    match goal with
    | |- context [match ?o with Return _ => _ | Raise _ => _ end] =>
        destruct o
    end; reflexivity.
  - apply in_or_app. right. apply in_or_app. right.
    apply in_or_app. left. cbn. auto.
Qed.

(** A run whose scaler or classifier did not answer a label displays no
    result. *)
Lemma run_without_result (w : world) (i : widgets) (c : cache_t)
    (m s : pyobject) :
  outcome_of (loaded w c) = Return (Some m, Some s) ->
  truth m = true -> truth s = true ->
  match transform s (input_data i) with
  | Raise _ => True
  | Return X => match predict m X with
                | Return (_ :: _) => False
                | _ => True
                end
  end ->
  shown_status (log_of (run w i c)) = None /\
  shown_confidence (log_of (run w i c)) = None.
Proof.
  intros Hr Hm Hs Hno.
  destruct (loaded_returns w c) as (r & _ & _ & Hlog).
  destruct (load_events_silent _ Hlog) as (Hst & Hco & _).
  rewrite (run_block_log w i c m s Hr Hm Hs), block_log_cases.
  rewrite !shown_status_app, !shown_confidence_app, Hst, Hco.
  destruct (transform s (input_data i)) as [X|e]; [|split; reflexivity].
  destruct (predict m X) as [[|l ls]|e]; [split; reflexivity|destruct Hno|].
  split; reflexivity.
Qed.



(** The frame that the block displays is the frame of the widgets. *)
Lemma prediction_body_frames (w : world) (i : widgets) (model scaler : pyval)
    (c : cache_t) :
  Forall (fun ev => forall d, ev = Show (dataframe_view d) ->
                              d = input_data i)
         (log_of (prediction_body w i model scaler c)).
Proof.
  unfold prediction_body, show_result, confidence_of.
  repeat logged_step; intros d [=]; auto.
Qed.

(** X10: the raw analysis data that a page shows is the data that was
    classified: a displayed frame is the frame of the widgets of this run,
    and the scaler has been called on it. *)
Theorem displayed_frame_is_classified (w : world) (i : widgets)
    (c : cache_t) (d : dataframe) :
  In (Show (dataframe_view d)) (log_of (run w i c)) ->
  d = input_data i /\
  In (Call (scaler_transform d)) (log_of (run w i c)).
Proof.
  intros Hin.
  destruct (run_shape w c) as [(r & Hr & Hf)|(m & s & Hr & Hm & Hs)].
  - exfalso. rewrite (run_falsy_log w i c r Hr Hf) in Hin.
    apply in_app_or in Hin. destruct Hin as [Hin|Hin].
    { apply loaded_log_events in Hin. discriminate Hin. }
    cbn in Hin.
    repeat (destruct Hin as [Hin|Hin]; [discriminate Hin|]).
    exact Hin.
  - assert (Hd : d = input_data i).
    { rewrite (run_block_log w i c m s Hr Hm Hs) in Hin.
      apply in_app_or in Hin. destruct Hin as [Hin|Hin].
      { apply loaded_log_events in Hin. discriminate Hin. }
      apply in_app_or in Hin. destruct Hin as [Hin|Hin].
      { cbn in Hin. destruct Hin as [H|[H|[]]]; discriminate H. }
      apply in_app_or in Hin. destruct Hin as [Hin|Hin].
      2:{ cbn in Hin. destruct Hin as [H|[H|[]]]; discriminate H. }
      rewrite prediction_block_log in Hin.
      apply in_app_or in Hin. destruct Hin as [Hin|Hin].
      - pose proof (prediction_body_frames w i (Some m) (Some s)
                      (Some (Some m, Some s))) as Hq.
        rewrite Forall_forall in Hq. exact (Hq _ Hin d eq_refl).
      - destruct (outcome_of _); cbn in Hin; [destruct Hin|].
        destruct Hin as [H|[]]. discriminate H. }
    split; [exact Hd|]. subst d.
    exact (run_calls_scaler w i c (Some m) (Some s) Hr Hm Hs).
Qed.

(** X10 on the default widgets. *)
Lemma displayed_frame_is_classified_witness :
  In (Call (scaler_transform (input_data default_widgets)))
     (log_of (run (on_disk (level_model None) unit_scaler)
                  default_widgets None)).
Proof.
  refine (proj2 (displayed_frame_is_classified
                   (on_disk (level_model None) unit_scaler)
                   default_widgets None (input_data default_widgets) _)).
  vm_compute. do 18 right. left. reflexivity.
Defined.

(** ** The encoding of the widgets *)

(** On the range of the slider, [float] maps the next integer to a greater
    number (checked on the 1000 steps of the slider). *)
Lemma float_of_int_step (n : Z) :
  0 <= n < 1000 ->
  PrimFloat.ltb (float_of_int n) (float_of_int (n + 1)) = true.
Proof.
  intros Hn.
  assert (H : forallb (fun k => PrimFloat.ltb (float_of_int (Z.of_nat k))
                                  (float_of_int (Z.of_nat k + 1)))
                      (seq 0 1000) = true) by (vm_compute; reflexivity).
  rewrite forallb_forall in H.
  specialize (H (Z.to_nat n)). rewrite Z2Nat.id in H by lia.
  apply H. apply in_seq. lia.
Qed.

Lemma float_of_int_lt (a b : Z) :
  0 <= a -> a < b -> b <= 1000 ->
  PrimFloat.ltb (float_of_int a) (float_of_int b) = true.
Proof.
  intros Ha Hab Hb.
  replace b with (a + 1 + Z.of_nat (Z.to_nat (b - a - 1))) by lia.
  assert (Hk : a + 1 + Z.of_nat (Z.to_nat (b - a - 1)) <= 1000) by lia.
  revert Hk. generalize (Z.to_nat (b - a - 1)) as k.
  induction k as [|k IH]; intros Hk.
  - rewrite Z.add_0_r. apply float_of_int_step. lia.
  - apply (ltb_trans _ (float_of_int (a + 1 + Z.of_nat k))).
    + apply IH. lia.
    + replace (a + 1 + Z.of_nat (S k)) with (a + 1 + Z.of_nat k + 1) by lia.
      apply float_of_int_step. lia.
Qed.

Lemma float_of_int_inj (a b : Z) :
  0 <= a <= 1000 -> 0 <= b <= 1000 ->
  float_of_int a = float_of_int b -> a = b.
Proof.
  intros Ha Hb Heq.
  destruct (Z.lt_trichotomy a b) as [Hlt|[Heq'|Hgt]]; [|exact Heq'|].
  - pose proof (float_of_int_lt a b (proj1 Ha) Hlt (proj2 Hb)) as H.
    rewrite Heq, ltb_irrefl in H. discriminate H.
  - pose proof (float_of_int_lt b a (proj1 Hb) Hgt (proj2 Ha)) as H.
    rewrite Heq, ltb_irrefl in H. discriminate H.
Qed.

Lemma SFcompare_Eq_sym (x y : spec_float) :
  SFcompare x y = Some Eq -> SFcompare y x = Some Eq.
Proof.
  destruct x as [sx|sx| |sx mx ex], y as [sy|sy| |sy my ey];
    try destruct sx; try destruct sy; cbn;
    try discriminate; try reflexivity;
    change (Pos.compare_cont Eq) with Pos.compare;
    intros H1; injection H1 as H1; f_equal;
    rewrite (Z.compare_antisym ex ey), (Pos.compare_antisym mx my);
    destruct (ex ?= ey); cbn in *; try discriminate; try reflexivity;
    destruct (mx ?= my)%positive; cbn in *; try discriminate; reflexivity.
Qed.

(** Numbers that are equal are not less than one another. *)
Lemma eqb_not_ltb (a b : pyfloat) :
  PrimFloat.eqb a b = true ->
  PrimFloat.ltb a b = false /\ PrimFloat.ltb b a = false.
Proof.
  rewrite eqb_spec, !ltb_spec. unfold SFeqb, SFltb.
  destruct (SFcompare (Prim2SF a) (Prim2SF b)) as [[]|] eqn:E;
    try discriminate.
  intros _. now rewrite (SFcompare_Eq_sym _ _ E).
Qed.

(** A number that is greater than another one is not NaN. *)
Lemma ltb_not_nan (a b : pyfloat) :
  PrimFloat.ltb a b = true -> PrimFloat.eqb b b = true.
Proof.
  rewrite ltb_spec, eqb_spec. unfold SFltb, SFeqb.
  destruct (SFcompare_refl (Prim2SF b)) as [-> | E]; [reflexivity|].
  destruct (Prim2SF a), (Prim2SF b) as [sb|sb| |sb mb eb];
    try destruct sb; cbn in *; discriminate.
Qed.

(** X11: on the range of the slider, from 0 to 1000, the conversion
    [float(water_dist)] keeps the order of the distances: the column that
    the scaler gets compares as the slider values do. *)
Theorem water_dist_keeps_order (a b : Z) :
  0 <= a <= 1000 -> 0 <= b <= 1000 ->
  (PrimFloat.ltb (float_of_int a) (float_of_int b) = true <-> a < b) /\
  (PrimFloat.eqb (float_of_int a) (float_of_int b) = true <-> a = b).
Proof.
  intros Ha Hb. split; split.
  - intros H.
    destruct (Z.lt_trichotomy a b) as [Hl|[->|Hg]]; [exact Hl| |].
    + rewrite ltb_irrefl in H. discriminate H.
    + pose proof (float_of_int_lt b a (proj1 Hb) Hg (proj2 Ha)) as H'.
      pose proof (ltb_trans _ _ _ H H') as H''.
      rewrite ltb_irrefl in H''. discriminate H''.
  - intros Hab. apply float_of_int_lt; lia.
  - intros Heq. destruct (eqb_not_ltb _ _ Heq) as [Hab Hba].
    destruct (Z.lt_trichotomy a b) as [Hl|[He|Hg]]; [|exact He|].
    + rewrite (float_of_int_lt a b (proj1 Ha) Hl (proj2 Hb)) in Hab.
      discriminate Hab.
    + rewrite (float_of_int_lt b a (proj1 Hb) Hg (proj2 Ha)) in Hba.
      discriminate Hba.
  - intros ->. destruct (Z.eq_dec b 0) as [->|Hne]; [reflexivity|].
    apply (ltb_not_nan (float_of_int 0)).
    apply float_of_int_lt; lia.
Qed.

(** X11 at two positions of the slider. *)
Lemma water_dist_keeps_order_witness :
  PrimFloat.ltb (float_of_int 50) (float_of_int 792) = true <-> 50 < 792.
Proof.
  apply (water_dist_keeps_order 50 792); lia.
Defined.

(** X12: the frame loses nothing of the reading.  With the water distance
    on the range of its slider, two settings of the widgets that give the
    same frame are the same setting: the toggles are recovered from their
    0 and 1, the temperature is passed as it is, and [float] is one to one
    on the distances. *)
Theorem frame_determines_widgets (i1 i2 : widgets) :
  0 <= water_dist i1 <= 1000 -> 0 <= water_dist i2 <= 1000 ->
  input_data i1 = input_data i2 -> i1 = i2.
Proof.
  destruct i1 as [r1 t1 d1 g1 f1], i2 as [r2 t2 d2 g2 f2].
  unfold input_data. cbn [rain_val temp_val water_dist gas_val wf_val].
  intros H1 H2 Heq.
  injection Heq as Hg Hr Ht Hd Hf.
  apply (float_of_int_inj d1 d2 H1 H2) in Hd.
  assert (Hb : forall x y, int_of_bool x = int_of_bool y -> x = y).
  { intros [] []; cbn; intros E; try reflexivity; discriminate E. }
  apply Hb in Hg, Hr, Hf. now subst.
Qed.

(** X12 at the default widgets. *)
Lemma frame_determines_widgets_witness :
  default_widgets = default_widgets.
Proof.
  apply (frame_determines_widgets default_widgets default_widgets);
    cbn; try lia; reflexivity.
Defined.

(** ** NaN among the probabilities *)

Lemma is_nan_not_less (x y : pyfloat) :
  is_nan x = true ->
  PrimFloat.ltb x y = false /\ PrimFloat.ltb y x = false.
Proof.
  unfold is_nan. rewrite negb_true_iff, eqb_spec, !ltb_spec.
  unfold SFeqb, SFltb. intros H.
  destruct (Prim2SF x) as [sx|sx| |sx mx ex].
  - discriminate H.
  - destruct sx; discriminate H.
  - split; [reflexivity|]. now destruct (Prim2SF y).
  - exfalso. revert H. cbn.
    change (Pos.compare_cont Eq) with Pos.compare.
    rewrite Z.compare_refl, Pos.compare_refl. destruct sx; discriminate.
Qed.

(** X13: how [max] treats NaN.  A NaN in the first place is the result,
    whatever follows; a NaN in a later place is skipped, as if it were not
    in the row. *)
Theorem max_and_nan (x : pyfloat) (before after : list pyfloat)
    (first : pyfloat) :
  is_nan x = true ->
  py_max (x :: after) = Return x /\
  py_max (first :: before ++ x :: after)
    = py_max (first :: before ++ after).
Proof.
  intros Hx. split.
  - cbn [py_max]. f_equal.
    induction after as [|y after IH]; cbn [max_from]; [reflexivity|].
    now rewrite (proj1 (is_nan_not_less x y Hx)).
  - cbn [py_max]. f_equal. revert first.
    induction before as [|y before IH]; intros first; cbn [app max_from].
    + now rewrite (proj2 (is_nan_not_less x first Hx)).
    + apply IH.
Qed.

(** X13 at rows with the NaN in the first and in the second place. *)
Lemma max_and_nan_witness :
  py_max [nan; 0.3; 0.7]%float = Return nan /\
  py_max [0.3; nan; 0.7]%float = py_max [0.3; 0.7]%float.
Proof.
  split.
  - exact (proj1 (max_and_nan nan [] [0.3; 0.7]%float 0%float eq_refl)).
  - exact (proj2 (max_and_nan nan [] [0.7]%float 0.3%float eq_refl)).
Defined.

(** ** The range of the confidence *)

(** X14: the value that the progress bar gets lies between 0 and 1 on
    every page, provided that every first row that [predict_proba] answers
    does: the maximum of such a row does, and so do the two mock values. *)
Theorem displayed_confidence_in_unit_interval (w : world) (i : widgets)
    (c : cache_t) (m s : pyobject) (v : pyfloat) :
  outcome_of (loaded w c) = Return (Some m, Some s) ->
  (forall X row P, predict_proba m X = Return (row :: P) ->
                   Forall unit_interval row) ->
  shown_confidence (log_of (run w i c)) = Some v ->
  unit_interval v.
Proof.
  intros Hr Hrows Hv.
  destruct (run_shape w c) as [(r & Hr' & Hf)|(m' & s' & Hr' & Hm & Hs)].
  { destruct (run_degraded w i c r Hr' Hf) as (_ & _ & _ & _ & Hco).
    rewrite Hco in Hv. discriminate Hv. }
  assert (E : (Some m', Some s') = (Some m, Some s)) by congruence.
  injection E as -> ->.
  destruct (transform s (input_data i)) as [X|e] eqn:HX.
  2:{ destruct (run_without_result w i c m s Hr Hm Hs) as [_ Hco];
        [now rewrite HX|].
      rewrite Hco in Hv. discriminate Hv. }
  destruct (predict m X) as [[|l ls]|e] eqn:Hl.
  1,3: destruct (run_without_result w i c m s Hr Hm Hs) as [_ Hco];
         [now rewrite HX, Hl|];
       rewrite Hco in Hv; discriminate Hv.
  destruct (run_result_source w i c m s X l ls Hr Hm Hs HX Hl)
    as (cc & Hco & _).
  rewrite Hco in Hv. apply show_result_confidence_inv in Hv.
  destruct Hv as [_ Hv]. rewrite confidence_of_cases in Hv.
  cbn [outcome_of] in Hv. injection Hv as <-.
  destruct (predict_proba m X) as [[|[|item rest] P]|e] eqn:HP;
    try (unfold map_prediction, mock_confidence;
         destruct (l =? 0); split; reflexivity).
  pose proof (Hrows X _ P HP) as Hall. rewrite Forall_forall in Hall.
  apply Hall. apply max_from_In.
Qed.

(** X14 at a classifier with probabilities. *)
Lemma displayed_confidence_in_unit_interval_witness :
  unit_interval 0.8%float.
Proof.
  apply (displayed_confidence_in_unit_interval
           (on_disk (level_model (Some level_proba)) unit_scaler)
           default_widgets None
           (level_model (Some level_proba)) unit_scaler 0.8%float).
  - reflexivity.
  - intros X row P HP. cbn in HP.
    destruct X as [|x X]; [discriminate HP|].
    cbn in HP. injection HP as <- _. unfold level_proba.
    destruct (level_label x =? 1); repeat constructor.
  - reflexivity.
Defined.

